(** * Emoji explainer: a shallow embedding of the service functions

    The repository is a FastAPI backend whose service functions talk to a
    relational store through the Prisma client, to a remote explanation
    provider through httpx, to the wall clock and to the uuid generator.
    Every service function is embedded as a computation in a state and
    exception monad over a [World]: the four tables, and a log of the
    effects performed so far (provider calls, clock readings, uuid draws).
    The outside world (what the provider answers, what the clock shows,
    which uuid comes next) is an [Env] the computations read from. *)

From Stdlib Require Import ZArith List String Ascii Bool Lia DecimalString.
From Stdlib Require Import SpecFloat.
Import ListNotations.
Open Scope string_scope.
Open Scope Z_scope.

(** ** Python values the services handle *)

(** Exceptions the service functions can raise, by Python class. *)
Inductive exn : Type :=
| ValueError (msg : string)
| KeyError (key : string)
| TypeError (msg : string)
| AttributeError (msg : string)
| HTTPStatusError (status : Z)
| JSONDecodeError
| ValidationError (field : string)
| PrismaError (msg : string)
| OverflowError (msg : string).

(** A decoded JSON document, as [response.json()] returns it.  An object is
    the Python dict it decodes to, kept as an association list. *)
#[local] Unset Elimination Schemes.
Inductive json : Type :=
| JNull
| JBool (b : bool)
| JInt (n : Z)
| JFloat (x : spec_float)
| JStr (s : string)
| JArr (items : list json)
| JObj (fields : list (string * json)).
#[local] Set Elimination Schemes.

(** [d.get(k)] / [d[k]] on a decoded object: the binding of [k], if any. *)
Fixpoint dict_get (k : string) (d : list (string * json)) : option json :=
  match d with
  | [] => None
  | (k', v) :: d' => if String.eqb k k' then Some v else dict_get k d'
  end.

(** An httpx response: its status code and its body, [None] when the body
    is not a JSON document. *)
Record http_response : Type := mkResponse {
  status_code : Z;
  body : option json
}.

(** ** Data model *)

(** Modelled from the spec: the Prisma schema is not among the sources; the
    tables, their columns and the unique columns ([Emoji.symbol],
    [User.email], every [id]) are those of the spec's data model, and every
    [id] is an auto-incremented integer. *)
Inductive Role : Type := ADMIN | USER | SERVICE_MANAGER.

Record Emoji : Type := mkEmoji {
  emoji_id : Z;
  symbol : string
}.

Record Explanation : Type := mkExplanation {
  explanation_id : Z;
  content : string;
  emojiId : Z;
  updatedBy : Z
}.

Record User : Type := mkUser {
  user_id : Z;
  username : string;
  password : string;
  email : string;
  role : Role
}.

(** Instants ([datetime]) are counted in microseconds. *)
Record Session : Type := mkSession {
  session_id : Z;
  userId : Z;
  expiresAt : Z
}.

Record Store : Type := mkStore {
  emojis : list Emoji;
  explanations : list Explanation;
  users : list User;
  sessions : list Session
}.

(** The store together with the trace of effects performed so far. *)
Record World : Type := mkWorld {
  store : Store;
  provider_calls : list string;   (* emoji of each provider request, oldest first *)
  clock_reads : nat;              (* number of [datetime.now()] evaluated *)
  uuid_draws : nat                (* number of [uuid.uuid4()] evaluated *)
}.

(** How a call ends: with a value, or with an exception. *)
Inductive result (A : Type) : Type :=
| Ok (a : A)
| Raise (e : exn).
Arguments Ok {A} a.
Arguments Raise {A} e.

(** What the services read from outside, and the one built-in they call
    whose behaviour is taken as given: [int] on a string, which returns the
    integer or raises. *)
Record Env : Type := mkEnv {
  groq_get : string -> http_response;      (* GET  /llama3/explain?emoji=.. *)
  groq_post : string -> http_response;     (* POST /llama3/explain {emoji} *)
  clock : nat -> Z;                        (* the k-th reading of the clock *)
  uuid4 : nat -> string;                   (* the k-th uuid drawn, as text *)
  unicode_names : list (string * string);  (* character name -> character *)
  int_of_str : string -> result Z          (* the built-in [int(s)] *)
}.

(** ** The monad of service computations *)

Definition M (A : Type) : Type := World -> result A * World.

Definition ret {A} (a : A) : M A := fun w => (Ok a, w).

Definition raise {A} (e : exn) : M A := fun w => (Raise e, w).

Definition bind {A B} (m : M A) (k : A -> M B) : M B :=
  fun w =>
    match m w with
    | (Ok a, w') => k a w'
    | (Raise e, w') => (Raise e, w')
    end.

Notation "x <- m ;; k" := (bind m (fun x => k))
  (at level 61, m at next level, right associativity).
Notation "m ;;; k" := (bind m (fun _ => k))
  (at level 61, right associativity).

Definition get_store : M Store := fun w => (Ok (store w), w).

Definition put_store (s : Store) : M unit :=
  fun w => (Ok tt, mkWorld s (provider_calls w) (clock_reads w) (uuid_draws w)).

(** [try: m except handler]: [handler e] is [Some k] when the clause
    catches [e]. *)
Definition try_except {A} (m : M A) (handler : exn -> option (M A)) : M A :=
  fun w =>
    match m w with
    | (Ok a, w') => (Ok a, w')
    | (Raise e, w') =>
        match handler e with
        | Some k => k w'
        | None => (Raise e, w')
        end
    end.

(** ** Python built-ins *)

(** Truth value of a decoded value, as [if v:] tests it. *)
Definition truthy (v : json) : bool :=
  match v with
  | JNull => false
  | JBool b => b
  | JInt n => negb (n =? 0)
  | JFloat x => negb (SFeqb x (S754_zero false))
  | JStr s => negb (String.eqb s "")
  | JArr items => match items with [] => false | _ => true end
  | JObj fields => match fields with [] => false | _ => true end
  end.

(** [v[k]] for a string key [k]. *)
Definition subscript (v : json) (k : string) : M json :=
  match v with
  | JObj d =>
      match dict_get k d with
      | Some x => ret x
      | None => raise (KeyError k)
      end
  | JArr _ => raise (TypeError "list indices must be integers or slices, not str")
  | JStr _ => raise (TypeError "string indices must be integers")
  | _ => raise (TypeError "object is not subscriptable")
  end.

(** [v.get(k)]: [None] (here [JNull]) when the key is absent. *)
Definition dot_get (v : json) (k : string) : M json :=
  match v with
  | JObj d =>
      match dict_get k d with
      | Some x => ret x
      | None => ret JNull
      end
  | _ => raise (AttributeError "object has no attribute 'get'")
  end.

(** [sub in s] on strings. *)
Fixpoint str_contains (sub s : string) : bool :=
  String.prefix sub s
  || match s with
     | EmptyString => false
     | String _ s' => str_contains sub s'
     end.

Definition is_space (c : ascii) : bool :=
  let n := nat_of_ascii c in
  (((9 <=? n) && (n <=? 13)) || (n =? 32))%nat.

Definition digit_of (c : ascii) : option Z :=
  let n := nat_of_ascii c in
  if ((48 <=? n) && (n <=? 57))%nat then Some (Z.of_nat (n - 48)) else None.

Fixpoint lstrip (cs : list ascii) : list ascii :=
  match cs with
  | c :: cs' => if is_space c then lstrip cs' else cs
  | [] => []
  end.

Definition strip (cs : list ascii) : list ascii :=
  rev (lstrip (rev (lstrip cs))).

(** Decimal digits with single underscores between them; [after_digit]
    tells whether the previous character was a digit. *)
Fixpoint int_digits (acc : Z) (after_digit : bool) (cs : list ascii) : option Z :=
  match cs with
  | [] => if after_digit then Some acc else None
  | c :: cs' =>
      match digit_of c with
      | Some d => int_digits (10 * acc + d) true cs'
      | None =>
          if Ascii.eqb c "_"%char && after_digit
          then int_digits acc false cs'
          else None
      end
  end.

(** The longest prefix of digits and underscores, and what follows it. *)
Fixpoint digit_run (cs : list ascii) : list ascii * list ascii :=
  match cs with
  | c :: cs' =>
      if match digit_of c with Some _ => true | None => Ascii.eqb c "_"%char end
      then let (run, rest) := digit_run cs' in (c :: run, rest)
      else ([], cs)
  | [] => ([], [])
  end.

Definition count_digits (cs : list ascii) : nat :=
  List.length (filter (fun c => match digit_of c with Some _ => true | None => false end) cs).

Definition hex_digit (n : nat) : ascii :=
  nth n (list_ascii_of_string "0123456789abcdef") "0"%char.

Definition double_quote : ascii := ascii_of_nat 34.

Definition repr_char (quote c : ascii) : string :=
  let n := nat_of_ascii c in
  if Ascii.eqb c "\"%char then "\\"
  else if Ascii.eqb c quote then String "\"%char (String c "")
  else if (n =? 9)%nat then "\t"
  else if (n =? 10)%nat then "\n"
  else if (n =? 13)%nat then "\r"
  else if ((n <? 32) || (n =? 127))%nat
       then String "\"%char
              (String "x"%char
                 (String (hex_digit (n / 16)) (String (hex_digit (n mod 16)) "")))
  else String c "".

(** [repr(s)] for a string of ASCII characters. *)
Definition py_repr (s : string) : string :=
  let cs := list_ascii_of_string s in
  let quote :=
    if existsb (Ascii.eqb "'"%char) cs && negb (existsb (Ascii.eqb double_quote) cs)
    then double_quote else "'"%char in
  String quote (concat "" (map (repr_char quote) cs) ++ String quote "").

Definition invalid_literal (s : string) : exn :=
  ValueError ("invalid literal for int() with base 10: "
              ++ substring 0 200 (py_repr s)).

Definition exceeds_limit (digits : nat) : exn :=
  ValueError ("Exceeds the limit (4300 digits) for integer string conversion: "
              ++ "value has " ++ NilEmpty.string_of_uint (Nat.to_uint digits)
              ++ " digits; use sys.set_int_max_str_digits() to increase the limit").

(** [int(s)] as Python 3.11 computes it on a string of ASCII characters:
    surrounding white space, an optional sign, decimal digits with single
    underscores between them, at most 4300 digits.  It serves the sample
    environments; a string with other than ASCII characters is refused
    here, which [int] does not always do, and no property below rests on
    it: they hold for every [int_of_str]. *)
Definition ascii_int (s : string) : result Z :=
  let cs := strip (list_ascii_of_string s) in
  let (negative, body_) :=
    match cs with
    | "-"%char :: cs' => (true, cs')
    | "+"%char :: cs' => (false, cs')
    | _ => (false, cs)
    end in
  let (run, rest) := digit_run body_ in
  match int_digits 0 false run with
  | None => Raise (invalid_literal s)
  | Some v =>
      if (4300 <? count_digits run)%nat then Raise (exceeds_limit (count_digits run))
      else match rest with
           | [] => Ok (if negative then - v else v)
           | _ => Raise (invalid_literal s)
           end
  end.

(** [str(e)] for the exceptions that carry a message. *)
Definition exn_str (e : exn) : string :=
  match e with
  | ValueError msg | TypeError msg | AttributeError msg | PrismaError msg
  | OverflowError msg => msg
  | KeyError key => "'" ++ key ++ "'"
  | HTTPStatusError _ => "HTTP status error"
  | JSONDecodeError => "Expecting value"
  | ValidationError field => "validation error for " ++ field
  end.

(** Python floats are IEEE 754 binary64, with the operations of the
    Standard Library's [SpecFloat] at precision 53 and exponent bound 1024. *)
Definition float : Type := spec_float.

(** A Python number: an [int] or a [float]. *)
Inductive number : Type :=
| PyInt (n : Z)
| PyFloat (x : float).

(** [a + v] for an [int] [a]: exact on ints; with a float, [a] is converted
    first and the sum is rounded to nearest even. *)
Definition int_plus (a : Z) (v : number) : number :=
  match v with
  | PyInt n => PyInt (a + n)
  | PyFloat x => PyFloat (SFadd 53 1024 (binary_normalize 53 1024 a 0 false) x)
  end.

(** [float(v)]: an int is rounded once, to nearest even; beyond the range
    of binary64 the conversion raises. *)
Definition to_float (v : number) : result float :=
  match v with
  | PyFloat x => Ok x
  | PyInt n =>
      match binary_normalize 53 1024 n 0 false with
      | S754_infinity _ => Raise (OverflowError "int too large to convert to float")
      | x => Ok x
      end
  end.

(** The integer a float stands for, when it stands for one. *)
Definition float_to_Z (x : float) : option Z :=
  match x with
  | S754_zero _ => Some 0
  | S754_finite negative m e =>
      let magnitude :=
        if 0 <=? e then Some (Zpos m * 2 ^ e)
        else if Zpos m mod 2 ^ (- e) =? 0 then Some (Zpos m / 2 ^ (- e))
        else None in
      option_map (fun z => if negative then - z else z) magnitude
  | _ => None
  end.

(** A [datetime]: an instant, counted in microseconds, and whether it
    carries a time zone. *)
Record datetime : Type := mkDatetime {
  micros : Z;
  aware : bool
}.

(** [timedelta(days=d)] in microseconds. *)
Definition timedelta_days (d : Z) : Z := d * 86400 * 1000000.

(** [t + delta] *)
Definition datetime_plus (t : datetime) (delta : Z) : datetime :=
  mkDatetime (micros t + delta) (aware t).

(** ** Effects *)

Section Effects.
Variable env : Env.

(** [datetime.now()]: the clock's reading, without a time zone. *)
Definition datetime_now : M datetime :=
  fun w =>
    (Ok (mkDatetime (clock env (clock_reads w)) false),
     mkWorld (store w) (provider_calls w) (S (clock_reads w)) (uuid_draws w)).

(** [int(s)] *)
Definition py_int (s : string) : M Z :=
  fun w => (int_of_str env s, w).

(** [str(uuid.uuid4())] *)
Definition uuid_uuid4 : M string :=
  fun w =>
    (Ok (uuid4 env (uuid_draws w)),
     mkWorld (store w) (provider_calls w) (clock_reads w) (S (uuid_draws w))).

(** [client.get(url)] on the provider's explain endpoint. *)
Definition client_get (emoji : string) : M http_response :=
  fun w =>
    (Ok (groq_get env emoji),
     mkWorld (store w) (provider_calls w ++ [emoji]) (clock_reads w) (uuid_draws w)).

(** [client.post(url, json={"emoji": emoji})] *)
Definition client_post (emoji : string) : M http_response :=
  fun w =>
    (Ok (groq_post env emoji),
     mkWorld (store w) (provider_calls w ++ [emoji]) (clock_reads w) (uuid_draws w)).

(** [unicodedata.lookup(name)] *)
Definition unicodedata_lookup (name : string) : M string :=
  match find (fun p => String.eqb (fst p) name) (unicode_names env) with
  | Some p => ret (snd p)
  | None => raise (KeyError ("undefined character name '" ++ name ++ "'"))
  end.
End Effects.

(** [a < b] and [a >= b] on datetimes: an aware and a naive one do not
    compare. *)
Definition datetime_lt (a b : datetime) : M bool :=
  if Bool.eqb (aware a) (aware b)
  then ret (micros a <? micros b)
  else raise (TypeError "can't compare offset-naive and offset-aware datetimes").

Definition datetime_ge (a b : datetime) : M bool :=
  if Bool.eqb (aware a) (aware b)
  then ret (micros a >=? micros b)
  else raise (TypeError "can't compare offset-naive and offset-aware datetimes").

(** [response.raise_for_status()]: any status outside 2xx raises. *)
Definition raise_for_status (response : http_response) : M unit :=
  if (200 <=? status_code response) && (status_code response <=? 299)
  then ret tt
  else raise (HTTPStatusError (status_code response)).

(** [response.json()] *)
Definition response_json (response : http_response) : M json :=
  match body response with
  | Some v => ret v
  | None => raise JSONDecodeError
  end.

(** ** The Prisma client *)

(** The next auto-incremented id of a table. *)
Definition next_id {A} (id : A -> Z) (rows : list A) : Z :=
  1 + fold_right (fun r m => Z.max (id r) m) 0 rows.

(** [Emoji.prisma().find_unique(where={"symbol": s}, include={"explanations": True})]:
    the record with that symbol, together with the explanations that
    reference it, in table order. *)
Definition emoji_record (st : Store) (s : string) : option Emoji :=
  find (fun e => String.eqb (symbol e) s) (emojis st).

Definition explanations_of (st : Store) (e : Emoji) : list Explanation :=
  filter (fun x => emojiId x =? emoji_id e) (explanations st).

Definition Emoji_find_unique (s : string) : M (option (Emoji * list Explanation)) :=
  st <- get_store ;;
  ret match emoji_record st s with
      | Some e => Some (e, explanations_of st e)
      | None => None
      end.

(** [Emoji.prisma().create(data={"symbol": s})] *)
Definition Emoji_create (s : string) : M Emoji :=
  st <- get_store ;;
  if existsb (fun e => String.eqb (symbol e) s) (emojis st)
  then raise (PrismaError "Unique constraint failed on the fields: (symbol)")
  else
    let e := mkEmoji (next_id emoji_id (emojis st)) s in
    put_store (mkStore (emojis st ++ [e]) (explanations st) (users st) (sessions st)) ;;;
    ret e.

(** [Explanation.prisma().create(data={"content": c, "emojiId": eid, "updatedBy": by})];
    [c] is whatever Python value the caller holds, and the column is text. *)
Definition Explanation_create (c : json) (eid by_ : Z) : M Explanation :=
  st <- get_store ;;
  match c with
  | JStr text =>
      if existsb (fun e => emoji_id e =? eid) (emojis st)
      then
        let x := mkExplanation (next_id explanation_id (explanations st)) text eid by_ in
        put_store (mkStore (emojis st) (explanations st ++ [x]) (users st) (sessions st)) ;;;
        ret x
      else raise (PrismaError "Foreign key constraint failed on the field: emojiId")
  | _ => raise (PrismaError "Invalid value for field content: expected a string")
  end.

(** [User.prisma().find_unique(where={"email": e})] *)
Definition user_by_email (st : Store) (e : string) : option User :=
  find (fun u => String.eqb (email u) e) (users st).

Definition User_find_unique_email (e : string) : M (option User) :=
  st <- get_store ;;
  ret (user_by_email st e).

(** [User.prisma().find_unique(where={"id": i})] *)
Definition user_by_id (st : Store) (i : Z) : option User :=
  find (fun u => user_id u =? i) (users st).

Definition User_find_unique_id (i : Z) : M (option User) :=
  st <- get_store ;;
  ret (user_by_id st i).

(** [User.prisma().create(data={username, password, email, role})] *)
Definition User_create (name pw mail : string) (r : Role) : M User :=
  st <- get_store ;;
  if existsb (fun u => String.eqb (email u) mail) (users st)
  then raise (PrismaError "Unique constraint failed on the fields: (email)")
  else
    let u := mkUser (next_id user_id (users st)) name pw mail r in
    put_store (mkStore (emojis st) (explanations st) (users st ++ [u]) (sessions st)) ;;;
    ret u.

(** [Session.prisma().find_unique(where={"id": i})] *)
Definition session_by_id (rows : list Session) (i : Z) : option Session :=
  find (fun s => session_id s =? i) rows.

Definition Session_find_unique (i : Z) : M (option Session) :=
  st <- get_store ;;
  ret (session_by_id (sessions st) i).

(** The [expiresAt] of a session object the client hands out: the client
    returns a DateTime column as a time-zone aware datetime, in UTC. *)
Definition Session_expiresAt (s : Session) : datetime :=
  mkDatetime (expiresAt s) true.

(** [Session.prisma().create(data={"userId": uid, "expiresAt": t})]: the
    instant of [t] is what is stored; a naive [t] is read in the zone the
    clock's readings are counted in. *)
Definition Session_create (uid : Z) (t : datetime) : M Session :=
  st <- get_store ;;
  if existsb (fun u => user_id u =? uid) (users st)
  then
    let s := mkSession (next_id session_id (sessions st)) uid (micros t) in
    put_store (mkStore (emojis st) (explanations st) (users st) (sessions st ++ [s])) ;;;
    ret s
  else raise (PrismaError "Foreign key constraint failed on the field: userId").

(** The sessions after [update(where={"id": i}, data={"expiresAt": t})]. *)
Definition set_expiresAt (i t : Z) (rows : list Session) : list Session :=
  map (fun s => if session_id s =? i then mkSession (session_id s) (userId s) t else s)
      rows.

(** [Session.prisma().update(where={"id": i}, data={"expiresAt": t})]:
    the updated record, [None] when no record has that id. *)
Definition Session_update (i : Z) (t : datetime) : M (option Session) :=
  st <- get_store ;;
  put_store (mkStore (emojis st) (explanations st) (users st)
                     (set_expiresAt i (micros t) (sessions st))) ;;;
  ret (session_by_id (set_expiresAt i (micros t) (sessions st)) i).

(** ** explainEmoji_service.py *)

Module explainEmoji_service.

Record EmojiExplanationResponse : Type := mkEmojiExplanationResponse {
  emoji : string;
  explanation : string
}.

(** The model's constructor, which validates [explanation: str]. *)
Definition EmojiExplanationResponse_init (emoji_ : string) (explanation_ : json)
  : M EmojiExplanationResponse :=
  match explanation_ with
  | JStr text => ret (mkEmojiExplanationResponse emoji_ text)
  | _ => raise (ValidationError "explanation")
  end.

Section WithEnv.
Variable env : Env.

Definition fetch_explanation_from_groq (emoji_ : string) : M json :=
  response <- client_get env emoji_ ;;
  raise_for_status response ;;;
  result_ <- response_json response ;;
  subscript result_ "explanation".

Definition explainEmoji (emoji_ : string) : M EmojiExplanationResponse :=
  emoji_record <- Emoji_find_unique emoji_ ;;
  explanation_text <-
    match emoji_record with
    | Some (_, first :: _) => ret (JStr (content first))
    | _ =>
        explanation_text <- fetch_explanation_from_groq emoji_ ;;
        emoji_record' <-
          match emoji_record with
          | None => Emoji_create emoji_
          | Some (e, _) => ret e
          end ;;
        Explanation_create explanation_text (emoji_id emoji_record') 1 ;;;
        ret explanation_text
    end ;;
  EmojiExplanationResponse_init emoji_ explanation_text.
End WithEnv.

End explainEmoji_service.

(** ** receiveEmoji_service.py *)

Module receiveEmoji_service.

Record EmojiResponseModel : Type := mkEmojiResponseModel {
  is_valid : bool;
  message : string
}.

(** The model's constructor, which validates [message: str]. *)
Definition EmojiResponseModel_init (is_valid_ : bool) (message_ : json)
  : M EmojiResponseModel :=
  match message_ with
  | JStr text => ret (mkEmojiResponseModel is_valid_ text)
  | _ => raise (ValidationError "message")
  end.

Section WithEnv.
Variable env : Env.

Definition is_emoji (character : string) : M bool :=
  table <- unicodedata_lookup env "EMOJI" ;;
  ret (str_contains character table).

Definition fetch_emoji_explanation (emoji_ : string) : M json :=
  response <- client_post env emoji_ ;;
  if status_code response =? 200
  then
    result_ <- response_json response ;;
    dot_get result_ "explanation"
  else ret (JStr "").

Definition receiveEmoji (emoji_ : string) : M EmojiResponseModel :=
  recognized <-
    (if negb (String.eqb emoji_ "") then is_emoji emoji_ else ret false) ;;
  if negb recognized
  then EmojiResponseModel_init false (JStr (emoji_ ++ " is not a valid emoji."))
  else
    explanation <- fetch_emoji_explanation emoji_ ;;
    if truthy explanation
    then EmojiResponseModel_init true explanation
    else EmojiResponseModel_init false
           (JStr "Failed to fetch explanation for the submitted emoji.").
End WithEnv.

End receiveEmoji_service.

(** ** loginUser_service.py *)

Module loginUser_service.

Record UserLoginResponse : Type := mkUserLoginResponse {
  session_token : string
}.

Section WithEnv.
Variable env : Env.

Definition loginUser (username_ password_ : string) : M UserLoginResponse :=
  user <- User_find_unique_email username_ ;;
  match user with
  | None => raise (ValueError "User does not exist")
  | Some user =>
      let simulated_correct_password := "securepassword" in
      if negb (String.eqb password_ simulated_correct_password)
      then raise (ValueError "Incorrect password")
      else
        session_token_ <- uuid_uuid4 env ;;
        now <- datetime_now env ;;
        Session_create (user_id user) (datetime_plus now (timedelta_days 1)) ;;;
        ret (mkUserLoginResponse session_token_)
  end.
End WithEnv.

End loginUser_service.

(** ** logoutUser_service.py *)

Module logoutUser_service.

Record LogoutResponse : Type := mkLogoutResponse {
  message : string
}.

Section WithEnv.
Variable env : Env.

Definition logoutUser (token : string) : M LogoutResponse :=
  parsed <-
    try_except
      (session_id_ <- py_int env token ;; ret (inr session_id_))
      (fun e =>
         match e with
         | ValueError _ => Some (ret (inl (mkLogoutResponse "Invalid session token.")))
         | _ => None
         end) ;;
  match parsed with
  | inl response => ret response
  | inr session_id_ =>
      session <- Session_find_unique session_id_ ;;
      match session with
      | None => ret (mkLogoutResponse "No active session found for the given token.")
      | Some session =>
          now <- datetime_now env ;;
          expired <- datetime_lt (Session_expiresAt session) now ;;
          if expired
          then ret (mkLogoutResponse "prisma.models.Session already expired.")
          else
            now' <- datetime_now env ;;
            Session_update (session_id session) now' ;;;
            ret (mkLogoutResponse "User successfully logged out.")
      end
  end.
End WithEnv.

End logoutUser_service.

(** ** verifySession_service.py *)

Module verifySession_service.

Record SessionVerifyResponse : Type := mkSessionVerifyResponse {
  is_valid : bool;
  user_role : Role
}.

(** The model's constructor, which validates [user_role: prisma.enums.Role]:
    the field is required and [None] is not a [Role]. *)
Definition SessionVerifyResponse_init (is_valid_ : bool) (user_role_ : option Role)
  : M SessionVerifyResponse :=
  match user_role_ with
  | Some r => ret (mkSessionVerifyResponse is_valid_ r)
  | None => raise (ValidationError "user_role")
  end.

Section WithEnv.
Variable env : Env.

Definition verifySession (session_token : string) : M SessionVerifyResponse :=
  session_id_ <- py_int env session_token ;;
  session <- Session_find_unique session_id_ ;;
  valid <-
    match session with
    | None => ret None
    | Some session =>
        now <- datetime_now env ;;
        live <- datetime_ge (Session_expiresAt session) now ;;
        ret (if live then Some session else None)
    end ;;
  match valid with
  | Some session =>
      user <- User_find_unique_id (userId session) ;;
      match user with
      | Some user => SessionVerifyResponse_init true (Some (role user))
      | None => raise (AttributeError "'NoneType' object has no attribute 'role'")
      end
  | None => SessionVerifyResponse_init false None
  end.
End WithEnv.

End verifySession_service.

(** ** registerUser_service.py *)

Module registerUser_service.

Record UserRegistrationResponse : Type := mkUserRegistrationResponse {
  message : string;
  new_user_id : option Z;       (* the field [user_id] *)
  error : option string
}.

Definition registerUser (username_ password_ email_ : string) (role_ : option Role)
  : M UserRegistrationResponse :=
  existing_user <- User_find_unique_email email_ ;;
  match existing_user with
  | Some _ =>
      ret (mkUserRegistrationResponse
             "Registration failed: Email already in use."
             None
             (Some "A user with this email already exists."))
  | None =>
      let final_role := match role_ with Some r => r | None => USER end in
      try_except
        (new_user <- User_create username_ password_ email_ final_role ;;
         ret (mkUserRegistrationResponse
                "User registered successfully." (Some (user_id new_user)) None))
        (fun e =>
           Some (ret (mkUserRegistrationResponse
                        "Registration failed due to an error."
                        None (Some (exn_str e)))))
  end.

End registerUser_service.

(** ** updateServerResources_service.py *)

Module updateServerResources_service.

Record ServerResourceUpdateResponse : Type := mkServerResourceUpdateResponse {
  cpu_updated_allocation : float;
  ram_updated_allocation : float;
  disk_space_updated_allocation : float;
  message : string
}.

(** The model's constructor: each [float] field takes a float as it is and
    converts an int. *)
Definition ServerResourceUpdateResponse_init
    (cpu ram disk : number) (message_ : string) : M ServerResourceUpdateResponse :=
  fun w =>
    (match to_float cpu, to_float ram, to_float disk with
     | Ok c, Ok r, Ok d => Ok (mkServerResourceUpdateResponse c r d message_)
     | Raise e, _, _ | Ok _, Raise e, _ | Ok _, Ok _, Raise e => Raise e
     end,
     w).

Definition updateServerResources
    (cpu_allocation_increment ram_allocation_increment
     disk_space_allocation_increment : number)
  : M ServerResourceUpdateResponse :=
  let current_cpu := 100 in
  let current_ram := 40 in
  let current_disk := 200 in
  let updated_cpu := int_plus current_cpu cpu_allocation_increment in
  let updated_ram := int_plus current_ram ram_allocation_increment in
  let updated_disk := int_plus current_disk disk_space_allocation_increment in
  ServerResourceUpdateResponse_init updated_cpu updated_ram updated_disk
    "Server resources successfully updated.".

End updateServerResources_service.

(** ** updateUserRole_service.py *)

(** The [Role] a string names, if any: the values of the enum. *)
Definition role_of_string (s : string) : option Role :=
  if String.eqb s "ADMIN" then Some ADMIN
  else if String.eqb s "USER" then Some USER
  else if String.eqb s "SERVICE_MANAGER" then Some SERVICE_MANAGER
  else None.

(** The users after [update(where={"id": i}, data={"role": r})]. *)
Definition set_role (i : Z) (r : Role) (rows : list User) : list User :=
  map (fun u => if user_id u =? i
                then mkUser (user_id u) (username u) (password u) (email u) r
                else u)
      rows.

(** [User.prisma().update(where={"id": i}, data={"role": newRole})]: the
    column is the [Role] enum, so a string that names no role is refused;
    the updated record, [None] when no record has that id. *)
Definition User_update_role (i : Z) (newRole : string) : M (option User) :=
  match role_of_string newRole with
  | None => raise (PrismaError "Invalid value for field role: not a Role")
  | Some r =>
      st <- get_store ;;
      put_store (mkStore (emojis st) (explanations st)
                         (set_role i r (users st)) (sessions st)) ;;;
      ret (find (fun u => user_id u =? i) (set_role i r (users st)))
  end.

Module updateUserRole_service.

Record UserRoleUpdateResponse : Type := mkUserRoleUpdateResponse {
  userId : Z;
  updatedRole : string;
  status : string
}.

Definition updateUserRole (userId_ : Z) (newRole : string)
  : M UserRoleUpdateResponse :=
  user <- User_find_unique_id userId_ ;;
  match user with
  | None => ret (mkUserRoleUpdateResponse userId_ "" "User not found")
  | Some _ =>
      User_update_role userId_ newRole ;;;
      ret (mkUserRoleUpdateResponse userId_ newRole "Success")
  end.

End updateUserRole_service.

(** ** deleteResourceAllocation_service.py *)

Module deleteResourceAllocation_service.

Record DeleteResourceResponse : Type := mkDeleteResourceResponse {
  message : string
}.

Section WithClient.
(** [Explanation.prisma().delete(where={"id": resource_id})], taken as
    given: whatever the client does with the string it is handed, it
    returns the deleted record, or [None], or raises. *)
Variable Explanation_delete : string -> M (option Explanation).

Definition deleteResourceAllocation (resource_id : string)
  : M DeleteResourceResponse :=
  try_except
    (explanation <- Explanation_delete resource_id ;;
     match explanation with
     | Some _ =>
         ret (mkDeleteResourceResponse "Resource allocation deleted successfully.")
     | None => ret (mkDeleteResourceResponse "Resource allocation not found.")
     end)
    (fun e =>
       Some (ret (mkDeleteResourceResponse
                    ("Failed to delete resource allocation: " ++ exn_str e)))).
End WithClient.

End deleteResourceAllocation_service.

(** ** Well-formed stores *)

(** What the schema's constraints say of a store: ids are unique in every
    table, so are the symbols of the emojis and the emails of the users,
    every explanation references an emoji and every session a user. *)
Record store_ok (st : Store) : Prop := mkStoreOk {
  emoji_ids_unique : NoDup (map emoji_id (emojis st));
  symbols_unique : NoDup (map symbol (emojis st));
  explanation_ids_unique : NoDup (map explanation_id (explanations st));
  user_ids_unique : NoDup (map user_id (users st));
  emails_unique : NoDup (map email (users st));
  session_ids_unique : NoDup (map session_id (sessions st));
  explanations_reference_emojis :
    forall x, In x (explanations st) -> In (emojiId x) (map emoji_id (emojis st));
  sessions_reference_users :
    forall s, In s (sessions st) -> In (userId s) (map user_id (users st))
}.

(** A computation only appends to the emoji and explanation tables, at most
    one row each, makes at most the one provider call [s], and touches
    nothing else. *)
Definition appends_at_most_one (s : string) (w w' : World) : Prop :=
  (provider_calls w' = provider_calls w \/
   provider_calls w' = (provider_calls w ++ [s])%list)
  /\ (exists es, emojis (store w') = (emojis (store w) ++ es)%list
                 /\ (List.length es <= 1)%nat)
  /\ (exists xs, explanations (store w') = (explanations (store w) ++ xs)%list
                 /\ (List.length xs <= 1)%nat)
  /\ users (store w') = users (store w)
  /\ sessions (store w') = sessions (store w)
  /\ clock_reads w' = clock_reads w
  /\ uuid_draws w' = uuid_draws w.

(** ** Vocabulary of the properties *)

(** The provider answers with a text: a 2xx status and a JSON object whose
    [explanation] is a string. *)
Definition provider_text (response : http_response) (text : string) : Prop :=
  200 <= status_code response <= 299 /\
  exists d, body response = Some (JObj d) /\
            dict_get "explanation" d = Some (JStr text).

(** Two user records that agree on everything but the password. *)
Definition same_but_password (u u' : User) : Prop :=
  user_id u = user_id u' /\ username u = username u' /\
  email u = email u' /\ role u = role u'.

(** Two stores that differ at most in the password column of the users. *)
Definition differ_only_in_passwords (st st' : Store) : Prop :=
  emojis st = emojis st' /\ explanations st = explanations st' /\
  Forall2 same_but_password (users st) (users st') /\
  sessions st = sessions st'.

(** How a call ended: [None] for an answer, the exception otherwise. *)
Definition failure {A} (r : result A) : option exn :=
  match r with
  | Ok _ => None
  | Raise e => Some e
  end.

(** The allocation reported for a base and an increment is the base plus
    the increment: for a float increment, the binary64 sum of the base and
    the increment; for an int increment, the float that stands for the
    integer sum. *)
Definition reports (base : Z) (increment : number) (reported : float) : Prop :=
  match increment with
  | PyFloat x => reported = SFadd 53 1024 (binary_normalize 53 1024 base 0 false) x
  | PyInt n => float_to_Z reported = Some (base + n)
  end.

(** The increments the function is written for: floats, and ints whose sum
    with the base a float holds exactly. *)
Definition representable (base : Z) (increment : number) : Prop :=
  match increment with
  | PyFloat _ => True
  | PyInt n => Z.abs (base + n) <= 2 ^ 53
  end.

(** ** Sample environments and worlds *)

Definition smile : string := "🙂".

Definition sample_names : list (string * string) :=
  [("SPACE", " "); ("DIGIT ZERO", "0"); ("LATIN SMALL LETTER A", "a");
   ("SLIGHTLY SMILING FACE", smile)].

Definition answer (status : Z) (b : option json) : string -> http_response :=
  fun _ => mkResponse status b.

(** A provider that explains, a clock that ticks every second from noon
    of some day, a uuid source. *)
Definition sample_env : Env :=
  mkEnv (answer 200 (Some (JObj [("explanation", JStr "A slightly smiling face.")])))
        (answer 200 (Some (JObj [("explanation", JStr "A slightly smiling face.")])))
        (fun k => 43200000000 + 1000000 * Z.of_nat k)
        (fun k => if Nat.eqb k 0 then "3f2b8c1e-5d47-4a90-9c3e-0b6a7d21f4e8"
                  else "9a1c4e77-02bd-4f3a-8e55-6c0d9b3a1f20")
        sample_names ascii_int.

(** The same, with a provider whose answer has no [explanation] field. *)
Definition silent_env : Env :=
  mkEnv (answer 200 (Some (JObj [("error", JStr "model overloaded")])))
        (answer 200 (Some (JObj [("error", JStr "model overloaded")])))
        (clock sample_env) (uuid4 sample_env) sample_names ascii_int.

Definition empty_store : Store := mkStore [] [] [] [].

Definition fresh_world (st : Store) : World := mkWorld st [] 0 0.

(** One registered user; session 1 ran out at noon, session 2 runs until
    one hour after noon. *)
Definition dana : User := mkUser 1 "dana" "hunter2" "dana@example.com" ADMIN.

Definition dana_store : Store :=
  mkStore [] [] [dana]
          [mkSession 1 1 43200000000; mkSession 2 1 46800000000].

(** The same store after dana changed her password. *)
Definition dana_store' : Store :=
  mkStore [] [] [mkUser 1 "dana" "securepassword" "dana@example.com" ADMIN]
          [mkSession 1 1 43200000000; mkSession 2 1 46800000000].

(** A world whose clock already shows one second past noon. *)
Definition afternoon_world (st : Store) : World := mkWorld st [] 1 0.

Definition smile_store : Store :=
  mkStore [mkEmoji 1 "👍"; mkEmoji 2 smile]
          [mkExplanation 1 "Approval." 1 1;
           mkExplanation 2 "A slightly smiling face." 2 1;
           mkExplanation 3 "Mild happiness." 2 1]
          [] [].

(** A provider that is down. *)
Definition down_env : Env :=
  mkEnv (answer 503 None) (answer 503 None)
        (clock sample_env) (uuid4 sample_env) sample_names ascii_int.

(** A provider whose answer carries [null] for the explanation. *)
Definition null_env : Env :=
  mkEnv (answer 200 (Some (JObj [("explanation", JNull)])))
        (answer 200 (Some (JObj [("explanation", JNull)])))
        (clock sample_env) (uuid4 sample_env) sample_names ascii_int.

(** An emoji that was recorded but never explained. *)
Definition bare_store : Store := mkStore [mkEmoji 1 smile] [] [] [].

(** The sample environment with another uuid source. *)
Definition other_uuid_env : Env :=
  mkEnv (groq_get sample_env) (groq_post sample_env) (clock sample_env)
        (fun _ => "00000000-0000-4000-8000-000000000000") sample_names ascii_int.

(** * Properties *)

(** ** The store *)

Lemma next_id_above {A} (id : A -> Z) (rows : list A) (r : A) :
  In r rows -> id r < next_id id rows.
Proof.
  unfold next_id. induction rows as [|r' rows IH]; cbn [fold_right In].
  - intros [].
  - intros [-> | Hin]; [lia | specialize (IH Hin); lia].
Qed.

Lemma next_id_fresh {A} (id : A -> Z) (rows : list A) (r : A) :
  In r rows -> id r <> next_id id rows.
Proof. intros Hin. pose proof (next_id_above id rows r Hin). lia. Qed.

Lemma find_none_existsb {A} (p : A -> bool) (rows : list A) :
  find p rows = None -> existsb p rows = false.
Proof.
  induction rows as [|r rows IH]; simpl; [reflexivity|].
  destruct (p r); [discriminate | exact IH].
Qed.

Lemma find_some_existsb {A} (p : A -> bool) (rows : list A) (r : A) :
  find p rows = Some r -> existsb p rows = true.
Proof.
  intros H. apply find_some in H. apply existsb_exists. exists r. exact H.
Qed.

Lemma existsb_last {A} (p : A -> bool) (rows : list A) (r : A) :
  p r = true -> existsb p (rows ++ [r]) = true.
Proof.
  intros H. rewrite existsb_app. simpl. rewrite H. apply orb_true_iff.
  right. reflexivity.
Qed.

(** Creating a record under a symbol no record has appends it. *)
Lemma Emoji_create_run (s : string) (w : World) :
  emoji_record (store w) s = None ->
  let e := mkEmoji (next_id emoji_id (emojis (store w))) s in
  Emoji_create s w =
    (Ok e,
     mkWorld (mkStore (emojis (store w) ++ [e]) (explanations (store w))
                      (users (store w)) (sessions (store w)))
             (provider_calls w) (clock_reads w) (uuid_draws w)).
Proof.
  intros Hrecord e. unfold Emoji_create, bind, get_store.
  rewrite (find_none_existsb _ _ Hrecord). reflexivity.
Qed.

(** Creating an explanation with a text for an existing emoji appends it. *)
Lemma Explanation_create_run (text : string) (eid by_ : Z) (w : World) :
  existsb (fun e => emoji_id e =? eid) (emojis (store w)) = true ->
  let x := mkExplanation (next_id explanation_id (explanations (store w)))
                         text eid by_ in
  Explanation_create (JStr text) eid by_ w =
    (Ok x,
     mkWorld (mkStore (emojis (store w)) (explanations (store w) ++ [x])
                      (users (store w)) (sessions (store w)))
             (provider_calls w) (clock_reads w) (uuid_draws w)).
Proof.
  intros Hemoji x. unfold Explanation_create, bind, get_store.
  rewrite Hemoji. reflexivity.
Qed.

(** ** The explanation cache *)

Section ExplanationCache.
Import explainEmoji_service.
Variable env : Env.

Lemma fetch_explanation_text (s text : string) (w : World) :
  provider_text (groq_get env s) text ->
  fetch_explanation_from_groq env s w =
    (Ok (JStr text),
     mkWorld (store w) (provider_calls w ++ [s]) (clock_reads w) (uuid_draws w)).
Proof.
  intros [Hstatus (d & Hbody & Hfield)].
  unfold fetch_explanation_from_groq, bind, client_get, raise_for_status,
    response_json.
  replace ((200 <=? status_code (groq_get env s))
           && (status_code (groq_get env s) <=? 299)) with true
    by (symmetry; apply andb_true_iff; split; apply Z.leb_le; lia).
  unfold ret. rewrite Hbody. simpl. rewrite Hfield. reflexivity.
Qed.

(** A 2xx answer whose JSON object has no [explanation] key makes the
    fetch raise [KeyError], after the one provider call. *)
Lemma fetch_explanation_missing_field (s : string) (d : list (string * json))
      (w : World) :
  200 <= status_code (groq_get env s) <= 299 ->
  body (groq_get env s) = Some (JObj d) ->
  dict_get "explanation" d = None ->
  fetch_explanation_from_groq env s w =
    (Raise (KeyError "explanation"),
     mkWorld (store w) (provider_calls w ++ [s]) (clock_reads w) (uuid_draws w)).
Proof.
  intros Hstatus Hbody Hfield.
  unfold fetch_explanation_from_groq, bind, client_get, raise_for_status,
    response_json.
  replace ((200 <=? status_code (groq_get env s))
           && (status_code (groq_get env s) <=? 299)) with true
    by (symmetry; apply andb_true_iff; split; apply Z.leb_le; lia).
  unfold ret. rewrite Hbody. simpl. rewrite Hfield. reflexivity.
Qed.

(** C1. When the store holds an Emoji record for the symbol and at least
    one Explanation references it, [explainEmoji] answers with the content
    of the first of these explanations, unchanged, and the world after the
    call is the world before it: the store is the same and no provider
    call was added to the log. *)
Theorem explainEmoji_stored (s : string) (w : World) (e : Emoji)
        (first : Explanation) (others : list Explanation) :
  emoji_record (store w) s = Some e ->
  explanations_of (store w) e = first :: others ->
  explainEmoji env s w = (Ok (mkEmojiExplanationResponse s (content first)), w).
Proof.
  intros Hrecord Hexplanations.
  unfold explainEmoji, Emoji_find_unique, bind, get_store, ret.
  rewrite Hrecord, Hexplanations. reflexivity.
Qed.

(** C2. When the store holds no Emoji record for the symbol and the
    provider answers with a text, [explainEmoji] makes exactly one provider
    call, appends exactly one Emoji record for the symbol, under an id no
    other Emoji record has, and exactly one Explanation record whose
    content is the provider's text and whose emojiId is the id of the new
    Emoji record, touches nothing else, and answers with the provider's
    text. *)
Theorem explainEmoji_unseen (s text : string) (w : World) :
  emoji_record (store w) s = None ->
  provider_text (groq_get env s) text ->
  let new_emoji := mkEmoji (next_id emoji_id (emojis (store w))) s in
  let new_explanation :=
    mkExplanation (next_id explanation_id (explanations (store w)))
                  text (emoji_id new_emoji) 1 in
  explainEmoji env s w =
    (Ok (mkEmojiExplanationResponse s text),
     mkWorld (mkStore (emojis (store w) ++ [new_emoji])
                      (explanations (store w) ++ [new_explanation])
                      (users (store w)) (sessions (store w)))
             (provider_calls w ++ [s]) (clock_reads w) (uuid_draws w))
  /\ (forall e, In e (emojis (store w)) -> emoji_id e <> emoji_id new_emoji).
Proof.
  intros Hrecord Hprovider new_emoji new_explanation. split.
  - unfold explainEmoji, Emoji_find_unique.
    unfold bind at 1 2. unfold get_store, ret at 1. rewrite Hrecord.
    unfold bind at 1 2. rewrite (fetch_explanation_text s text w Hprovider).
    unfold bind at 1. rewrite Emoji_create_run by exact Hrecord.
    unfold bind at 1. rewrite Explanation_create_run
      by (apply existsb_last, Z.eqb_refl).
    reflexivity.
  - intros e Hin. apply next_id_fresh. exact Hin.
Qed.
End ExplanationCache.

Section ExplanationCacheExamples.
Import explainEmoji_service.

Lemma explainEmoji_stored_witness :
  explainEmoji sample_env smile (fresh_world smile_store) =
    (Ok (mkEmojiExplanationResponse smile "A slightly smiling face."),
     fresh_world smile_store).
Proof.
  apply (explainEmoji_stored sample_env smile (fresh_world smile_store)
           (mkEmoji 2 smile)
           (mkExplanation 2 "A slightly smiling face." 2 1)
           [mkExplanation 3 "Mild happiness." 2 1]); reflexivity.
Defined.

Lemma explainEmoji_unseen_witness :
  explainEmoji sample_env smile (fresh_world empty_store) =
    (Ok (mkEmojiExplanationResponse smile "A slightly smiling face."),
     mkWorld (mkStore [mkEmoji 1 smile]
                      [mkExplanation 1 "A slightly smiling face." 1 1] [] [])
             [smile] 0 0).
Proof.
  apply (explainEmoji_unseen sample_env smile "A slightly smiling face."
           (fresh_world empty_store)).
  - reflexivity.
  - split; [simpl; lia|].
    exists [("explanation", JStr "A slightly smiling face.")].
    split; reflexivity.
Defined.

(** The spec's example: on the empty store the first lookup calls the
    provider once and stores the answer, the second one answers from the
    store without a provider call. *)
Example explainEmoji_twice_on_empty_store :
  let (first, w1) := explainEmoji sample_env smile (fresh_world empty_store) in
  let (second, w2) := explainEmoji sample_env smile w1 in
  first = Ok (mkEmojiExplanationResponse smile "A slightly smiling face.")
  /\ second = first
  /\ provider_calls w1 = [smile]
  /\ w2 = w1.
Proof. vm_compute. repeat split. Qed.

(** C3. On the empty store, with a provider that answers 200 with a JSON
    object that has no [explanation] field, [explainEmoji] does not come
    back with an answer of its own: the [KeyError] of the missing key
    leaves the function, after the provider call and before anything is
    stored. *)
Theorem explainEmoji_missing_field_raises :
  dict_get "explanation" [("error", JStr "model overloaded")] = None
  /\ explainEmoji silent_env smile (fresh_world empty_store) =
       (Raise (KeyError "explanation"), mkWorld empty_store [smile] 0 0).
Proof. split; reflexivity. Qed.
End ExplanationCacheExamples.

(** ** Sessions *)

Lemma Session_create_run (u : User) (t : datetime) (w : World) :
  In u (users (store w)) ->
  let s := mkSession (next_id session_id (sessions (store w))) (user_id u)
                     (micros t) in
  Session_create (user_id u) t w =
    (Ok s,
     mkWorld (mkStore (emojis (store w)) (explanations (store w))
                      (users (store w)) (sessions (store w) ++ [s]))
             (provider_calls w) (clock_reads w) (uuid_draws w)).
Proof.
  intros Hin s. unfold Session_create, bind, get_store.
  replace (existsb (fun u0 => user_id u0 =? user_id u) (users (store w)))
    with true; [reflexivity|].
  symmetry. apply existsb_exists. exists u. split; [exact Hin | apply Z.eqb_refl].
Qed.

Lemma user_by_email_In (st : Store) (e : string) (u : User) :
  user_by_email st e = Some u -> In u (users st) /\ email u = e.
Proof.
  unfold user_by_email. intros H. apply find_some in H.
  destruct H as [Hin Heq]. split; [exact Hin | apply String.eqb_eq, Heq].
Qed.

Section Login.
Import loginUser_service.
Variable env : Env.

Lemma loginUser_unknown (username_ password_ : string) (w : World) :
  user_by_email (store w) username_ = None ->
  loginUser env username_ password_ w =
    (Raise (ValueError "User does not exist"), w).
Proof.
  intros Hnone. unfold loginUser, User_find_unique_email, bind, get_store, ret.
  rewrite Hnone. reflexivity.
Qed.

Lemma loginUser_wrong_password (username_ password_ : string) (w : World)
      (u : User) :
  user_by_email (store w) username_ = Some u ->
  password_ <> "securepassword" ->
  loginUser env username_ password_ w =
    (Raise (ValueError "Incorrect password"), w).
Proof.
  intros Hsome Hpw. unfold loginUser, User_find_unique_email, bind, get_store, ret.
  rewrite Hsome. apply String.eqb_neq in Hpw. rewrite Hpw. reflexivity.
Qed.

Lemma loginUser_success (username_ : string) (w : World) (u : User) :
  user_by_email (store w) username_ = Some u ->
  let expiry := clock env (clock_reads w) + 24 * 3600 * 1000000 in
  let s := mkSession (next_id session_id (sessions (store w))) (user_id u) expiry in
  loginUser env username_ "securepassword" w =
    (Ok (mkUserLoginResponse (uuid4 env (uuid_draws w))),
     mkWorld (mkStore (emojis (store w)) (explanations (store w))
                      (users (store w)) (sessions (store w) ++ [s]))
             (provider_calls w) (S (clock_reads w)) (S (uuid_draws w))).
Proof.
  intros Hsome expiry s.
  destruct (user_by_email_In _ _ _ Hsome) as [Hin _].
  unfold loginUser, User_find_unique_email.
  unfold bind at 1 2. unfold get_store, ret at 1. rewrite Hsome.
  cbn [String.eqb Ascii.eqb Bool.eqb negb andb].
  unfold bind at 1. unfold uuid_uuid4 at 1.
  unfold bind at 1. unfold datetime_now at 1. cbn [clock_reads store uuid_draws].
  unfold bind at 1. rewrite Session_create_run by exact Hin.
  reflexivity.
Qed.

(** C4, as the code has it.  The account is looked up by the [email]
    column, with the [username] argument as the key.  When no User has that
    email, [loginUser] fails with "User does not exist" and changes
    nothing; when one has and the password is not the one hardcoded secret,
    it fails with "Incorrect password" and changes nothing; when one has and
    the password is the secret, it appends exactly one Session, for that
    user, expiring 24 hours after the clock reading of the call, and
    answers with the uuid drawn during the call. *)
Theorem loginUser_outcomes (username_ password_ : string) (w : World) :
  (user_by_email (store w) username_ = None ->
   loginUser env username_ password_ w =
     (Raise (ValueError "User does not exist"), w))
  /\ (forall u, user_by_email (store w) username_ = Some u ->
                password_ <> "securepassword" ->
      loginUser env username_ password_ w =
        (Raise (ValueError "Incorrect password"), w))
  /\ (forall u, user_by_email (store w) username_ = Some u ->
                password_ = "securepassword" ->
      let expiry := clock env (clock_reads w) + 24 * 3600 * 1000000 in
      let s := mkSession (next_id session_id (sessions (store w)))
                         (user_id u) expiry in
      loginUser env username_ password_ w =
        (Ok (mkUserLoginResponse (uuid4 env (uuid_draws w))),
         mkWorld (mkStore (emojis (store w)) (explanations (store w))
                          (users (store w)) (sessions (store w) ++ [s]))
                 (provider_calls w) (S (clock_reads w)) (S (uuid_draws w)))).
Proof.
  split; [|split].
  - apply loginUser_unknown.
  - intros u. apply loginUser_wrong_password.
  - intros u Hsome ->. apply loginUser_success. exact Hsome.
Qed.

(** The lookup by email does not see the password column. *)
Lemma user_by_email_same_but_password (st st' : Store) (e : string) :
  Forall2 same_but_password (users st) (users st') ->
  match user_by_email st e, user_by_email st' e with
  | None, None => True
  | Some u, Some u' => same_but_password u u'
  | _, _ => False
  end.
Proof.
  unfold user_by_email. generalize (users st) (users st').
  intros us us' Hrel.
  induction Hrel as [|u u' us us' Huu' _ IH]; simpl; [exact I|].
  destruct Huu' as (Hid & Hname & Hmail & Hrole).
  rewrite <- Hmail. destruct (String.eqb (email u) e).
  - repeat split; assumption.
  - exact IH.
Qed.

(** C9. On two worlds whose stores differ only in the password column of
    the User records, [loginUser] ends the same way for every username and
    password: it succeeds on both or fails on both with the same
    exception. *)
Theorem loginUser_ignores_stored_passwords
        (username_ password_ : string) (w w' : World) :
  differ_only_in_passwords (store w) (store w') ->
  failure (fst (loginUser env username_ password_ w)) =
  failure (fst (loginUser env username_ password_ w')).
Proof.
  intros (_ & _ & Husers & _).
  pose proof (user_by_email_same_but_password (store w) (store w')
                username_ Husers) as Hfind.
  destruct (user_by_email (store w) username_) as [u|] eqn:Hu;
    destruct (user_by_email (store w') username_) as [u'|] eqn:Hu';
    try contradiction.
  - destruct (String.eqb password_ "securepassword") eqn:Hpw.
    + apply String.eqb_eq in Hpw. subst password_.
      rewrite (loginUser_success _ _ _ Hu), (loginUser_success _ _ _ Hu').
      reflexivity.
    + apply String.eqb_neq in Hpw.
      rewrite (loginUser_wrong_password _ _ _ _ Hu Hpw),
              (loginUser_wrong_password _ _ _ _ Hu' Hpw).
      reflexivity.
  - rewrite (loginUser_unknown _ _ _ Hu), (loginUser_unknown _ _ _ Hu').
    reflexivity.
Qed.
End Login.

Section LoginExamples.
Import loginUser_service.

Lemma loginUser_outcomes_witness :
  loginUser sample_env "nobody@example.com" "securepassword"
            (fresh_world dana_store) =
    (Raise (ValueError "User does not exist"), fresh_world dana_store)
  /\ loginUser sample_env "dana@example.com" "hunter2" (fresh_world dana_store) =
       (Raise (ValueError "Incorrect password"), fresh_world dana_store)
  /\ loginUser sample_env "dana@example.com" "securepassword"
               (fresh_world dana_store) =
       (Ok (mkUserLoginResponse "3f2b8c1e-5d47-4a90-9c3e-0b6a7d21f4e8"),
        mkWorld (mkStore [] [] [dana]
                         [mkSession 1 1 43200000000; mkSession 2 1 46800000000;
                          mkSession 3 1 (43200000000 + 86400000000)])
                [] 1 1).
Proof.
  split; [|split].
  - apply (proj1 (loginUser_outcomes sample_env "nobody@example.com"
                    "securepassword" (fresh_world dana_store))).
    reflexivity.
  - apply (proj1 (proj2 (loginUser_outcomes sample_env "dana@example.com"
                           "hunter2" (fresh_world dana_store))) dana).
    + reflexivity.
    + discriminate.
  - apply (proj2 (proj2 (loginUser_outcomes sample_env "dana@example.com"
                           "securepassword" (fresh_world dana_store))) dana);
      reflexivity.
Defined.

(** C4 as the spec words it, by the [username] column, fails on the code.
    No User is called "dana@example.com", and still that login succeeds;
    a User is called "dana", the password is not the secret, and still the
    failure is "User does not exist", not "Incorrect password". *)
Lemma loginUser_by_username_counterexample :
  existsb (fun u => String.eqb (username u) "dana@example.com")
          (users dana_store) = false
  /\ fst (loginUser sample_env "dana@example.com" "securepassword"
                    (fresh_world dana_store)) =
       Ok (mkUserLoginResponse "3f2b8c1e-5d47-4a90-9c3e-0b6a7d21f4e8")
  /\ existsb (fun u => String.eqb (username u) "dana") (users dana_store) = true
  /\ "wrong" <> "securepassword"
  /\ fst (loginUser sample_env "dana" "wrong" (fresh_world dana_store)) =
       Raise (ValueError "User does not exist").
Proof. repeat split. discriminate. Qed.

Lemma loginUser_ignores_stored_passwords_witness :
  differ_only_in_passwords dana_store dana_store'
  /\ failure (fst (loginUser sample_env "dana@example.com" "hunter2"
                             (fresh_world dana_store))) =
     failure (fst (loginUser sample_env "dana@example.com" "hunter2"
                             (fresh_world dana_store'))).
Proof.
  assert (H : differ_only_in_passwords dana_store dana_store').
  { repeat split. constructor; [repeat split | constructor]. }
  split; [exact H|].
  apply (loginUser_ignores_stored_passwords sample_env "dana@example.com"
           "hunter2" (fresh_world dana_store) (fresh_world dana_store')).
  exact H.
Defined.
End LoginExamples.

(** ** Logout *)

Lemma session_by_id_In (rows : list Session) (i : Z) (s : Session) :
  session_by_id rows i = Some s -> In s rows /\ session_id s = i.
Proof.
  unfold session_by_id. intros H. apply find_some in H.
  destruct H as [Hin Heq]. split; [exact Hin | apply Z.eqb_eq, Heq].
Qed.

Section Logout.
Import logoutUser_service.
Variable env : Env.

(** A token [int] refuses with [ValueError] is answered as invalid. *)
Lemma logoutUser_unparsable (token msg : string) (w : World) :
  int_of_str env token = Raise (ValueError msg) ->
  logoutUser env token w = (Ok (mkLogoutResponse "Invalid session token."), w).
Proof.
  intros Hint. unfold logoutUser, py_int, try_except, bind.
  rewrite Hint. reflexivity.
Qed.

(** A token that names no stored session is answered as not found. *)
Lemma logoutUser_no_session (token : string) (sid : Z) (w : World) :
  int_of_str env token = Ok sid ->
  session_by_id (sessions (store w)) sid = None ->
  logoutUser env token w =
    (Ok (mkLogoutResponse "No active session found for the given token."), w).
Proof.
  intros Hint Hnone.
  unfold logoutUser, Session_find_unique, py_int, try_except, bind, get_store, ret.
  rewrite Hint. cbv beta iota. rewrite Hnone. reflexivity.
Qed.

(** For a token that names a stored session, the expiry the client hands
    out is time-zone aware and [datetime.now()] is not: the comparison of
    line 39 raises, after the clock was read and before any update. *)
Lemma logoutUser_found (token : string) (sid : Z) (s : Session) (w : World) :
  int_of_str env token = Ok sid ->
  session_by_id (sessions (store w)) sid = Some s ->
  logoutUser env token w =
    (Raise (TypeError "can't compare offset-naive and offset-aware datetimes"),
     mkWorld (store w) (provider_calls w) (S (clock_reads w)) (uuid_draws w)).
Proof.
  intros Hint Hsome.
  unfold logoutUser, Session_find_unique, py_int, try_except, datetime_lt,
    Session_expiresAt, bind, get_store, ret, raise, datetime_now.
  rewrite Hint. cbv beta iota. rewrite Hsome. reflexivity.
Qed.
End Logout.

Section LogoutExamples.
Import logoutUser_service.

Example logoutUser_invalid_token :
  logoutUser sample_env "3f2b8c1e" (afternoon_world dana_store) =
    (Ok (mkLogoutResponse "Invalid session token."), afternoon_world dana_store).
Proof. reflexivity. Qed.

Example logoutUser_unknown_session :
  logoutUser sample_env "7" (afternoon_world dana_store) =
    (Ok (mkLogoutResponse "No active session found for the given token."),
     afternoon_world dana_store).
Proof. reflexivity. Qed.

(** C5. One second past noon, on a store whose session 2 runs until one
    hour after noon and whose session 1 ran out at noon, [logoutUser] neither
    expires the live session nor answers that the other one already expired:
    for both tokens the comparison of the stored expiry with
    [datetime.now()] raises [TypeError], the call ends in it and the store
    is what it was. *)
Theorem logoutUser_stored_session_raises :
  int_of_str sample_env "2" = Ok 2
  /\ session_by_id (sessions dana_store) 2 = Some (mkSession 2 1 46800000000)
  /\ clock sample_env 1 = 43201000000
  /\ logoutUser sample_env "2" (afternoon_world dana_store) =
       (Raise (TypeError "can't compare offset-naive and offset-aware datetimes"),
        mkWorld dana_store [] 2 0)
  /\ int_of_str sample_env "1" = Ok 1
  /\ session_by_id (sessions dana_store) 1 = Some (mkSession 1 1 43200000000)
  /\ logoutUser sample_env "1" (afternoon_world dana_store) =
       (Raise (TypeError "can't compare offset-naive and offset-aware datetimes"),
        mkWorld dana_store [] 2 0).
Proof. repeat split. Qed.
End LogoutExamples.

(** ** Session verification *)

Section Verify.
Import verifySession_service.
Variable env : Env.

(** Whatever [int] raises on the token leaves [verifySession] as it is. *)
Lemma verifySession_unparsable (token : string) (e : exn) (w : World) :
  int_of_str env token = Raise e ->
  verifySession env token w = (Raise e, w).
Proof.
  intros Hint. unfold verifySession, py_int, bind. rewrite Hint. reflexivity.
Qed.

(** With no session under the id, building the negative answer raises. *)
Lemma verifySession_no_session (token : string) (sid : Z) (w : World) :
  int_of_str env token = Ok sid ->
  session_by_id (sessions (store w)) sid = None ->
  verifySession env token w = (Raise (ValidationError "user_role"), w).
Proof.
  intros Hint Hnone.
  unfold verifySession, Session_find_unique, py_int,
    SessionVerifyResponse_init, bind, get_store, ret.
  rewrite Hint. cbv beta iota. rewrite Hnone. reflexivity.
Qed.

(** With a session under the id, the comparison of its expiry with
    [datetime.now()] raises, after the clock was read. *)
Lemma verifySession_found (token : string) (sid : Z) (s : Session) (w : World) :
  int_of_str env token = Ok sid ->
  session_by_id (sessions (store w)) sid = Some s ->
  verifySession env token w =
    (Raise (TypeError "can't compare offset-naive and offset-aware datetimes"),
     mkWorld (store w) (provider_calls w) (S (clock_reads w)) (uuid_draws w)).
Proof.
  intros Hint Hsome.
  unfold verifySession, Session_find_unique, py_int, datetime_ge,
    Session_expiresAt, bind, get_store, ret, raise, datetime_now.
  rewrite Hint. cbv beta iota. rewrite Hsome. reflexivity.
Qed.
End Verify.

Section VerifyExamples.
Import verifySession_service.

(** C6. One second past noon, on a store whose session 1 ran out at noon
    and that has no session 7, [verifySession] gives no [is_valid = false]
    answer for either token.  For token 7 the answer it builds carries no
    role, the response model requires one, and the call ends in the model's
    [ValidationError].  For token 1 the call ends before that, in the
    [TypeError] of comparing the stored expiry with [datetime.now()]. *)
Theorem verifySession_rejection_raises :
  session_by_id (sessions dana_store) 7 = None
  /\ verifySession sample_env "7" (afternoon_world dana_store) =
       (Raise (ValidationError "user_role"), afternoon_world dana_store)
  /\ session_by_id (sessions dana_store) 1 = Some (mkSession 1 1 43200000000)
  /\ clock sample_env 1 = 43201000000
  /\ verifySession sample_env "1" (afternoon_world dana_store) =
       (Raise (TypeError "can't compare offset-naive and offset-aware datetimes"),
        mkWorld dana_store [] 2 0).
Proof. repeat split. Qed.
End VerifyExamples.

(** ** Registration *)

Lemma User_create_run (name pw mail : string) (r : Role) (w : World) :
  user_by_email (store w) mail = None ->
  let u := mkUser (next_id user_id (users (store w))) name pw mail r in
  User_create name pw mail r w =
    (Ok u,
     mkWorld (mkStore (emojis (store w)) (explanations (store w))
                      (users (store w) ++ [u]) (sessions (store w)))
             (provider_calls w) (clock_reads w) (uuid_draws w)).
Proof.
  intros Hnone u. unfold User_create, bind, get_store.
  unfold user_by_email in Hnone. rewrite (find_none_existsb _ _ Hnone).
  reflexivity.
Qed.

Section Register.
Import registerUser_service.

Lemma registerUser_new (username_ password_ email_ : string)
      (role_ : option Role) (w : World) :
  user_by_email (store w) email_ = None ->
  let u := mkUser (next_id user_id (users (store w))) username_ password_ email_
                  (match role_ with Some r => r | None => USER end) in
  registerUser username_ password_ email_ role_ w =
    (Ok (mkUserRegistrationResponse "User registered successfully."
                                    (Some (user_id u)) None),
     mkWorld (mkStore (emojis (store w)) (explanations (store w))
                      (users (store w) ++ [u]) (sessions (store w)))
             (provider_calls w) (clock_reads w) (uuid_draws w)).
Proof.
  intros Hnone u.
  unfold registerUser, User_find_unique_email.
  unfold bind at 1 2. unfold get_store, ret at 1. rewrite Hnone.
  unfold try_except, bind. rewrite User_create_run by exact Hnone.
  reflexivity.
Qed.

(** C7. When a User with the given email exists, [registerUser] answers
    "Registration failed: Email already in use." and the world after the
    call is the world before it, so no User row is added.  When none
    exists, it appends exactly one User row, with the given username,
    password and email, under an id no other User has, and answers with
    that id; the new user's role is USER when no role was given, and the
    given role otherwise. *)
Theorem registerUser_outcomes (username_ password_ email_ : string)
        (role_ : option Role) (w : World) :
  (forall existing,
      user_by_email (store w) email_ = Some existing ->
      registerUser username_ password_ email_ role_ w =
        (Ok (mkUserRegistrationResponse
               "Registration failed: Email already in use." None
               (Some "A user with this email already exists.")),
         w))
  /\ (user_by_email (store w) email_ = None ->
      exists r,
        (role_ = None -> r = USER) /\ (forall r', role_ = Some r' -> r = r') /\
        let u := mkUser (next_id user_id (users (store w)))
                        username_ password_ email_ r in
        registerUser username_ password_ email_ role_ w =
          (Ok (mkUserRegistrationResponse "User registered successfully."
                                          (Some (user_id u)) None),
           mkWorld (mkStore (emojis (store w)) (explanations (store w))
                            (users (store w) ++ [u]) (sessions (store w)))
                   (provider_calls w) (clock_reads w) (uuid_draws w))
        /\ (forall v, In v (users (store w)) -> user_id v <> user_id u)).
Proof.
  split.
  - intros existing Hsome.
    unfold registerUser, User_find_unique_email, bind, get_store, ret.
    rewrite Hsome. reflexivity.
  - intros Hnone.
    exists (match role_ with Some r => r | None => USER end).
    split; [intros ->; reflexivity|].
    split; [intros r' ->; reflexivity|].
    split.
    + apply registerUser_new. exact Hnone.
    + intros v Hin. apply next_id_fresh. exact Hin.
Qed.

Lemma registerUser_outcomes_witness :
  registerUser "dana2" "pw" "dana@example.com" None (fresh_world dana_store) =
    (Ok (mkUserRegistrationResponse
           "Registration failed: Email already in use." None
           (Some "A user with this email already exists.")),
     fresh_world dana_store)
  /\ exists r,
       (@None Role = None -> r = USER) /\
       (forall r', None = Some r' -> r = r') /\
       registerUser "eli" "pw" "eli@example.com" None (fresh_world dana_store) =
         (Ok (mkUserRegistrationResponse "User registered successfully."
                                         (Some 2) None),
          mkWorld (mkStore [] [] [dana; mkUser 2 "eli" "pw" "eli@example.com" r]
                           [mkSession 1 1 43200000000;
                            mkSession 2 1 46800000000])
                  [] 0 0)
       /\ (forall v, In v [dana] -> user_id v <> 2).
Proof.
  split.
  - apply (proj1 (registerUser_outcomes "dana2" "pw" "dana@example.com" None
                    (fresh_world dana_store)) dana).
    reflexivity.
  - apply (proj2 (registerUser_outcomes "eli" "pw" "eli@example.com" None
                    (fresh_world dana_store))).
    reflexivity.
Defined.
End Register.

(** ** Emoji validation and the receive path *)

Section Receive.
Import receiveEmoji_service.
Variable env : Env.

(** The Unicode character database names no character "EMOJI"; on every
    such table [is_emoji] raises, whatever the character. *)
Lemma is_emoji_always_raises (character : string) (w : World) :
  find (fun p => String.eqb (fst p) "EMOJI") (unicode_names env) = None ->
  is_emoji env character w =
    (Raise (KeyError "undefined character name 'EMOJI'"), w).
Proof.
  intros Hnone. unfold is_emoji, bind, unicodedata_lookup.
  rewrite Hnone. reflexivity.
Qed.

(** So does [receiveEmoji] on every non-empty input, before any provider
    call. *)
Lemma receiveEmoji_nonempty_raises (emoji_ : string) (w : World) :
  find (fun p => String.eqb (fst p) "EMOJI") (unicode_names env) = None ->
  emoji_ <> "" ->
  receiveEmoji env emoji_ w =
    (Raise (KeyError "undefined character name 'EMOJI'"), w).
Proof.
  intros Hnone Hne. unfold receiveEmoji. unfold bind at 1.
  apply String.eqb_neq in Hne. rewrite Hne. cbn [negb].
  rewrite (is_emoji_always_raises _ _ Hnone). reflexivity.
Qed.

(** The sibling fetch: a 200 answer without the field gives [None]. *)
Lemma fetch_emoji_explanation_missing_field (emoji_ : string)
      (d : list (string * json)) (w : World) :
  status_code (groq_post env emoji_) = 200 ->
  body (groq_post env emoji_) = Some (JObj d) ->
  dict_get "explanation" d = None ->
  fetch_emoji_explanation env emoji_ w =
    (Ok JNull,
     mkWorld (store w) (provider_calls w ++ [emoji_]) (clock_reads w)
             (uuid_draws w)).
Proof.
  intros Hstatus Hbody Hfield.
  unfold fetch_emoji_explanation, client_post, response_json, dot_get, bind.
  rewrite Hstatus, Hbody. cbn [Z.eqb Pos.eqb]. unfold ret.
  rewrite Hfield. reflexivity.
Qed.
End Receive.

Section ExplainMissingField.
Import explainEmoji_service.
Variable env : Env.

(** Whenever the lookup reaches the provider and the answer is a 2xx JSON
    object without [explanation], [explainEmoji] ends in [KeyError] and
    stores nothing. *)
Lemma explainEmoji_missing_field (s : string) (d : list (string * json))
      (w : World) :
  match emoji_record (store w) s with
  | Some e => explanations_of (store w) e = []
  | None => True
  end ->
  200 <= status_code (groq_get env s) <= 299 ->
  body (groq_get env s) = Some (JObj d) ->
  dict_get "explanation" d = None ->
  explainEmoji env s w =
    (Raise (KeyError "explanation"),
     mkWorld (store w) (provider_calls w ++ [s]) (clock_reads w) (uuid_draws w)).
Proof.
  intros Hmiss Hstatus Hbody Hfield.
  unfold explainEmoji, Emoji_find_unique.
  unfold bind at 1 2. unfold get_store, ret at 1.
  destruct (emoji_record (store w) s) as [e|].
  - rewrite Hmiss. unfold bind at 1 2.
    rewrite (fetch_explanation_missing_field env s d w Hstatus Hbody Hfield).
    reflexivity.
  - unfold bind at 1 2.
    rewrite (fetch_explanation_missing_field env s d w Hstatus Hbody Hfield).
    reflexivity.
Qed.
End ExplainMissingField.

Section ReceiveExamples.
Import receiveEmoji_service.

(** C8. On the one-character input "🙂", [is_emoji] returns no boolean:
    [unicodedata.lookup("EMOJI")] finds no character of that name and the
    call ends in its [KeyError]. *)
Theorem is_emoji_raises :
  find (fun p => String.eqb (fst p) "EMOJI") (unicode_names sample_env) = None
  /\ is_emoji sample_env smile (fresh_world empty_store) =
       (Raise (KeyError "undefined character name 'EMOJI'"),
        fresh_world empty_store).
Proof. split; reflexivity. Qed.

Example receiveEmoji_smile :
  receiveEmoji sample_env smile (fresh_world empty_store) =
    (Raise (KeyError "undefined character name 'EMOJI'"),
     fresh_world empty_store).
Proof. reflexivity. Qed.

Example receiveEmoji_empty :
  receiveEmoji sample_env "" (fresh_world empty_store) =
    (Ok (mkEmojiResponseModel false " is not a valid emoji."),
     fresh_world empty_store).
Proof. reflexivity. Qed.
End ReceiveExamples.

(** ** Server resources *)

(** *** Converting an int to binary64 *)

Lemma digits2_pos_iter (p k : positive) :
  digits2_pos (Pos.iter xO p k) = (digits2_pos p + k)%positive.
Proof.
  induction k as [|k IH] using Pos.peano_ind.
  - cbn. rewrite Pos.add_1_r. reflexivity.
  - rewrite Pos.iter_succ. cbn [digits2_pos]. rewrite IH.
    rewrite Pos.add_succ_r. reflexivity.
Qed.

Lemma Zpos_iter_xO (p k : positive) :
  Zpos (Pos.iter xO p k) = Zpos p * 2 ^ Zpos k.
Proof.
  induction k as [|k IH] using Pos.peano_ind.
  - cbn [Pos.iter]. change (Zpos p~0) with (2 * Zpos p).
    change (2 ^ 1) with 2. lia.
  - rewrite Pos.iter_succ.
    change (Zpos (Pos.iter xO p k)~0) with (2 * Zpos (Pos.iter xO p k)).
    rewrite IH, Pos2Z.inj_succ, Z.pow_succ_r by lia. lia.
Qed.

Lemma digits2_pos_bounds (p : positive) :
  2 ^ (Zpos (digits2_pos p) - 1) <= Zpos p < 2 ^ Zpos (digits2_pos p).
Proof.
  induction p as [p IH|p IH|]; cbn [digits2_pos].
  - rewrite Pos2Z.inj_succ, Pos2Z.inj_xI.
    replace (Z.succ (Zpos (digits2_pos p)) - 1) with (Z.succ (Zpos (digits2_pos p) - 1)) by lia.
    rewrite !Z.pow_succ_r by lia. lia.
  - rewrite Pos2Z.inj_succ. change (Zpos p~0) with (2 * Zpos p).
    replace (Z.succ (Zpos (digits2_pos p)) - 1) with (Z.succ (Zpos (digits2_pos p) - 1)) by lia.
    rewrite !Z.pow_succ_r by lia. lia.
  - cbn. lia.
Qed.

Lemma binary_round_aux_exact (sx : bool) (m : positive) (e : Z) :
  Zpos (digits2_pos m) = 53 -> -1074 <= e <= 971 ->
  binary_round_aux 53 1024 sx (Zpos m) e loc_Exact = S754_finite sx m e.
Proof.
  intros Hd He.
  assert (Hshift : fexp 53 1024 (Zdigits2 (Zpos m) + e) - e = 0).
  { cbn [Zdigits2]. rewrite Hd. unfold fexp, emin. lia. }
  unfold binary_round_aux, shr_fexp. rewrite Hshift.
  cbn [shr shr_record_of_loc shr_m loc_of_shr_record round_nearest_even].
  rewrite Hshift. cbn [shr shr_record_of_loc shr_m].
  replace (e <=? 1024 - 53) with true by (symmetry; apply Z.leb_le; lia).
  reflexivity.
Qed.

Lemma binary_round_exact (sx : bool) (p : positive) :
  Zpos p <= 2 ^ 53 ->
  exists m e,
    binary_round 53 1024 sx p 0 = S754_finite sx m e
    /\ float_to_Z (S754_finite sx m e) = Some (if sx then - Zpos p else Zpos p).
Proof.
  intros Hp.
  pose proof (digits2_pos_bounds p) as [Hlow Hhigh].
  assert (Hd : Zpos (digits2_pos p) <= 54).
  { assert (H : Zpos (digits2_pos p) - 1 <= 53)
      by (apply (Z.pow_le_mono_r_iff 2); lia).
    lia. }
  destruct (Z.eq_dec (Zpos (digits2_pos p)) 54) as [H54|H54].
  - rewrite H54 in Hlow. change (2 ^ (54 - 1)) with (2 ^ 53) in Hlow.
    assert (Hp' : p = 9007199254740992%positive)
      by (apply Pos2Z.inj; change (Zpos 9007199254740992) with (2 ^ 53); lia).
    subst p. destruct sx; do 2 eexists; split; reflexivity.
  - unfold binary_round.
    replace (fexp 53 1024 (Zpos (digits2_pos p) + 0))
      with (Zpos (digits2_pos p) - 53) by (unfold fexp, emin; lia).
    unfold shl_align. rewrite Z.sub_0_r.
    destruct (Zpos (digits2_pos p) - 53) as [|q|k] eqn:Hk; [| lia |].
    + exists p, 0. split.
      * apply binary_round_aux_exact; lia.
      * unfold float_to_Z. cbn [Z.leb Z.compare option_map].
        rewrite Z.pow_0_r, Z.mul_1_r. reflexivity.
    + exists (Pos.iter xO p k), (Zneg k). split.
      * apply binary_round_aux_exact.
        -- rewrite digits2_pos_iter, Pos2Z.inj_add. lia.
        -- lia.
      * unfold float_to_Z. cbn [Z.leb Z.compare Z.opp].
        rewrite Zpos_iter_xO.
        rewrite Z.mod_mul by (apply Z.pow_nonzero; lia).
        rewrite Z.div_mul by (apply Z.pow_nonzero; lia).
        reflexivity.
Qed.

Lemma to_float_exact (z : Z) :
  Z.abs z <= 2 ^ 53 ->
  exists x, to_float (PyInt z) = Ok x /\ float_to_Z x = Some z.
Proof.
  intros Hz. unfold to_float, binary_normalize.
  destruct z as [|p|p].
  - exists (S754_zero false). split; reflexivity.
  - destruct (binary_round_exact false p) as (m & e & Hround & Hvalue);
      [exact Hz|].
    rewrite Hround. exists (S754_finite false m e). split; [reflexivity|exact Hvalue].
  - destruct (binary_round_exact true p) as (m & e & Hround & Hvalue);
      [exact Hz|].
    rewrite Hround. exists (S754_finite true m e). split; [reflexivity|exact Hvalue].
Qed.

Section Resources.
Import updateServerResources_service.

Lemma to_float_int_plus (base : Z) (increment : number) :
  representable base increment ->
  exists x, to_float (int_plus base increment) = Ok x /\ reports base increment x.
Proof.
  destruct increment as [n|x]; cbn [representable int_plus reports].
  - intros Hn. apply to_float_exact. exact Hn.
  - intros _. eexists. split; reflexivity.
Qed.

(** C10. For float increments, and for int increments whose sums a float
    holds exactly, [updateServerResources] answers in every world with the
    allocations 100 + cpu increment, 40 + ram increment and 200 + disk
    increment (the binary64 sum for a float, the integer sum itself for an
    int) and leaves the world as it was; the answer is the same in every
    world, and a second call with the same arguments, made after the
    first, gives it again and again changes nothing: nothing accumulates. *)
Theorem updateServerResources_pure (cpu ram disk : number) (w : World) :
  representable 100 cpu -> representable 40 ram -> representable 200 disk ->
  exists r,
    updateServerResources cpu ram disk w = (Ok r, w)
    /\ reports 100 cpu (cpu_updated_allocation r)
    /\ reports 40 ram (ram_updated_allocation r)
    /\ reports 200 disk (disk_space_updated_allocation r)
    /\ message r = "Server resources successfully updated."
    /\ updateServerResources cpu ram disk
         (snd (updateServerResources cpu ram disk w)) = (Ok r, w)
    /\ forall w', updateServerResources cpu ram disk w' = (Ok r, w').
Proof.
  intros Hcpu Hram Hdisk.
  destruct (to_float_int_plus 100 cpu Hcpu) as (c & Hc & Hc').
  destruct (to_float_int_plus 40 ram Hram) as (r & Hr & Hr').
  destruct (to_float_int_plus 200 disk Hdisk) as (d & Hd & Hd').
  assert (Hrun : forall w',
             updateServerResources cpu ram disk w' =
               (Ok (mkServerResourceUpdateResponse c r d
                      "Server resources successfully updated."), w')).
  { intros w'. unfold updateServerResources, ServerResourceUpdateResponse_init.
    cbv zeta. rewrite Hc, Hr, Hd. reflexivity. }
  exists (mkServerResourceUpdateResponse c r d
            "Server resources successfully updated.").
  rewrite Hrun. cbn [snd cpu_updated_allocation ram_updated_allocation
                     disk_space_updated_allocation message].
  repeat split; try assumption. apply Hrun.
Qed.

(** The docstring's call, with ints: 110, 45 and 220. *)
Lemma updateServerResources_pure_witness :
  exists r,
    updateServerResources (PyInt 10) (PyInt 5) (PyInt 20) (fresh_world dana_store) =
      (Ok r, fresh_world dana_store)
    /\ float_to_Z (cpu_updated_allocation r) = Some 110
    /\ float_to_Z (ram_updated_allocation r) = Some 45
    /\ float_to_Z (disk_space_updated_allocation r) = Some 220
    /\ message r = "Server resources successfully updated."
    /\ updateServerResources (PyInt 10) (PyInt 5) (PyInt 20)
         (snd (updateServerResources (PyInt 10) (PyInt 5) (PyInt 20)
                 (fresh_world dana_store))) = (Ok r, fresh_world dana_store)
    /\ forall w',
         updateServerResources (PyInt 10) (PyInt 5) (PyInt 20) w' = (Ok r, w').
Proof.
  apply (updateServerResources_pure (PyInt 10) (PyInt 5) (PyInt 20)
           (fresh_world dana_store)); cbn; lia.
Defined.

(** The same call on binary64 values written out: 0.1, -40.0 and 2.5 give
    100.1, 0.0 and 202.5. *)
Example updateServerResources_floats :
  fst (updateServerResources
         (PyFloat (S754_finite false 7205759403792794 (-56)))
         (PyFloat (S754_finite true 5629499534213120 (-47)))
         (PyFloat (S754_finite false 5629499534213120 (-51)))
         (fresh_world empty_store)) =
    Ok (mkServerResourceUpdateResponse
          (S754_finite false 7043911292184166 (-46))
          (S754_zero false)
          (S754_finite false 7124835347988480 (-45))
          "Server resources successfully updated.").
Proof. reflexivity. Qed.

(** Edges: an increment too small to show is absorbed, and an int beyond
    the exact range is rounded once, to nearest even. *)
Example updateServerResources_edges :
  fst (updateServerResources
         (PyFloat (S754_finite false 6646139978924579 (-119)))
         (PyInt (2 ^ 54 + 2 - 40)) (PyInt (10 ^ 400))
         (fresh_world empty_store)) =
    Raise (OverflowError "int too large to convert to float")
  /\ to_float (int_plus 100 (PyFloat (S754_finite false 6646139978924579 (-119)))) =
       Ok (S754_finite false 7036874417766400 (-46))
  /\ option_map float_to_Z
       (match to_float (int_plus 100 (PyInt (2 ^ 54 + 2))) with
        | Ok x => Some x
        | Raise _ => None
        end) = Some (Some 18014398509482088).
Proof. repeat split. Qed.
End Resources.


(** * Further properties of the services *)

(** ** More on the explanation cache *)

Lemma find_app_none {A} (p : A -> bool) (rows : list A) (r : A) :
  find p rows = None -> p r = true -> find p (rows ++ [r]) = Some r.
Proof.
  intros Hnone Hr. induction rows as [|r' rows IH]; simpl in *.
  - rewrite Hr. reflexivity.
  - destruct (p r'); [discriminate | apply IH, Hnone].
Qed.

Lemma filter_none {A} (p : A -> bool) (rows : list A) :
  (forall r, In r rows -> p r = false) -> filter p rows = [].
Proof.
  intros H. induction rows as [|r rows IH]; simpl; [reflexivity|].
  rewrite (H r (or_introl eq_refl)). apply IH. intros r' Hin. apply H.
  right. exact Hin.
Qed.

Lemma next_id_not_in {A} (id : A -> Z) (rows : list A) :
  ~ In (next_id id rows) (map id rows).
Proof.
  intros Hin. apply in_map_iff in Hin. destruct Hin as (r & Heq & Hin).
  apply (next_id_fresh id rows r Hin). exact Heq.
Qed.

Section ExplanationCacheMore.
Import explainEmoji_service.
Variable env : Env.

Lemma fetch_explanation_status (s : string) (w : World) :
  ~ (200 <= status_code (groq_get env s) <= 299) ->
  fetch_explanation_from_groq env s w =
    (Raise (HTTPStatusError (status_code (groq_get env s))),
     mkWorld (store w) (provider_calls w ++ [s]) (clock_reads w) (uuid_draws w)).
Proof.
  intros Hstatus.
  unfold fetch_explanation_from_groq, bind, client_get, raise_for_status.
  replace ((200 <=? status_code (groq_get env s))
           && (status_code (groq_get env s) <=? 299)) with false; [reflexivity|].
  symmetry. apply andb_false_iff.
  destruct (Z.leb_spec 200 (status_code (groq_get env s))) as [H1|H1];
    [right; apply Z.leb_gt; lia | left; reflexivity].
Qed.

(** The provider is asked exactly once by every fetch, however it ends. *)
Lemma fetch_explanation_world (s : string) (w : World) :
  snd (fetch_explanation_from_groq env s w) =
    mkWorld (store w) (provider_calls w ++ [s]) (clock_reads w) (uuid_draws w).
Proof.
  unfold fetch_explanation_from_groq, bind, client_get, raise_for_status,
    response_json, subscript, ret, raise.
  destruct ((200 <=? status_code (groq_get env s))
            && (status_code (groq_get env s) <=? 299)); [|reflexivity].
  destruct (body (groq_get env s)) as [v|]; [|reflexivity].
  destruct v as [ | | | | | |d]; try reflexivity.
  destruct (dict_get "explanation" d); reflexivity.
Qed.

Lemma explainEmoji_run_hit (s : string) (w : World) (e : Emoji)
      (first : Explanation) (others : list Explanation) :
  emoji_record (store w) s = Some e ->
  explanations_of (store w) e = first :: others ->
  explainEmoji env s w = (Ok (mkEmojiExplanationResponse s (content first)), w).
Proof.
  intros Hrecord Hexplanations.
  unfold explainEmoji, Emoji_find_unique, bind, get_store, ret.
  rewrite Hrecord, Hexplanations. reflexivity.
Qed.

Lemma explainEmoji_run_unseen (s text : string) (w : World) :
  emoji_record (store w) s = None ->
  provider_text (groq_get env s) text ->
  explainEmoji env s w =
    (Ok (mkEmojiExplanationResponse s text),
     mkWorld (mkStore (emojis (store w)
                         ++ [mkEmoji (next_id emoji_id (emojis (store w))) s])
                      (explanations (store w)
                         ++ [mkExplanation
                               (next_id explanation_id (explanations (store w)))
                               text (next_id emoji_id (emojis (store w))) 1])
                      (users (store w)) (sessions (store w)))
             (provider_calls w ++ [s]) (clock_reads w) (uuid_draws w)).
Proof.
  intros Hrecord Hprovider.
  unfold explainEmoji, Emoji_find_unique.
  unfold bind at 1 2. unfold get_store, ret at 1. rewrite Hrecord.
  unfold bind at 1 2. rewrite (fetch_explanation_text env s text w Hprovider).
  unfold bind at 1. rewrite Emoji_create_run by exact Hrecord.
  unfold bind at 1. rewrite Explanation_create_run
    by (apply existsb_last, Z.eqb_refl).
  reflexivity.
Qed.

(** X1. An Emoji record without explanations is explained on the next lookup:
    when the provider answers with a text, exactly one Explanation is
    appended, linked to the record that was there, and no Emoji is added. *)
Theorem explainEmoji_explains_bare_record (s text : string) (w : World)
        (e : Emoji) :
  emoji_record (store w) s = Some e ->
  explanations_of (store w) e = [] ->
  provider_text (groq_get env s) text ->
  explainEmoji env s w =
    (Ok (mkEmojiExplanationResponse s text),
     mkWorld (mkStore (emojis (store w))
                      (explanations (store w)
                         ++ [mkExplanation
                               (next_id explanation_id (explanations (store w)))
                               text (emoji_id e) 1])
                      (users (store w)) (sessions (store w)))
             (provider_calls w ++ [s]) (clock_reads w) (uuid_draws w)).
Proof.
  intros Hrecord Hnone Hprovider.
  unfold explainEmoji, Emoji_find_unique.
  unfold bind at 1 2. unfold get_store, ret at 1. rewrite Hrecord, Hnone.
  unfold bind at 1 2. rewrite (fetch_explanation_text env s text w Hprovider).
  unfold bind at 1. unfold ret at 1.
  unfold bind at 1. rewrite Explanation_create_run.
  - reflexivity.
  - cbn [store emojis]. apply existsb_exists. exists e. split.
    + unfold emoji_record in Hrecord. apply find_some in Hrecord. apply Hrecord.
    + apply Z.eqb_refl.
Qed.

(** X2. When the lookup misses and the provider answers outside 2xx, the call
    ends in the status error; the one provider call is logged and the store
    is what it was. *)
Theorem explainEmoji_provider_down (s : string) (w : World) :
  match emoji_record (store w) s with
  | Some e => explanations_of (store w) e = []
  | None => True
  end ->
  ~ (200 <= status_code (groq_get env s) <= 299) ->
  explainEmoji env s w =
    (Raise (HTTPStatusError (status_code (groq_get env s))),
     mkWorld (store w) (provider_calls w ++ [s]) (clock_reads w) (uuid_draws w)).
Proof.
  intros Hmiss Hstatus.
  unfold explainEmoji, Emoji_find_unique.
  unfold bind at 1 2. unfold get_store, ret at 1.
  destruct (emoji_record (store w) s) as [e|].
  - rewrite Hmiss. unfold bind at 1 2.
    rewrite (fetch_explanation_status s w Hstatus). reflexivity.
  - unfold bind at 1 2.
    rewrite (fetch_explanation_status s w Hstatus). reflexivity.
Qed.

(** X3. The two writes of a miss are not one transaction: when the symbol is
    new and the provider's [explanation] is not a string, the Emoji row is
    written, the Explanation row is refused, and the call ends in that
    error with the Emoji row left behind. *)
Theorem explainEmoji_leaves_bare_record (s : string) (w : World)
        (d : list (string * json)) (v : json) :
  emoji_record (store w) s = None ->
  200 <= status_code (groq_get env s) <= 299 ->
  body (groq_get env s) = Some (JObj d) ->
  dict_get "explanation" d = Some v ->
  (forall text, v <> JStr text) ->
  explainEmoji env s w =
    (Raise (PrismaError "Invalid value for field content: expected a string"),
     mkWorld (mkStore (emojis (store w)
                         ++ [mkEmoji (next_id emoji_id (emojis (store w))) s])
                      (explanations (store w)) (users (store w))
                      (sessions (store w)))
             (provider_calls w ++ [s]) (clock_reads w) (uuid_draws w)).
Proof.
  intros Hrecord Hstatus Hbody Hfield Hv.
  unfold explainEmoji, Emoji_find_unique.
  unfold bind at 1 2. unfold get_store, ret at 1. rewrite Hrecord.
  unfold bind at 1 2.
  assert (Hfetch : fetch_explanation_from_groq env s w =
            (Ok v, mkWorld (store w) (provider_calls w ++ [s]) (clock_reads w)
                           (uuid_draws w))).
  { unfold fetch_explanation_from_groq, bind, client_get, raise_for_status,
      response_json.
    replace ((200 <=? status_code (groq_get env s))
             && (status_code (groq_get env s) <=? 299)) with true
      by (symmetry; apply andb_true_iff; split; apply Z.leb_le; lia).
    unfold ret. rewrite Hbody. simpl. rewrite Hfield. reflexivity. }
  rewrite Hfetch.
  unfold bind at 1. rewrite Emoji_create_run by exact Hrecord.
  unfold bind at 1. unfold Explanation_create, bind, get_store.
  destruct v; try reflexivity. exfalso. apply (Hv s0). reflexivity.
Qed.
End ExplanationCacheMore.

Ltac frame_done :=
  unfold appends_at_most_one;
  cbn [snd fst store emojis explanations users sessions provider_calls
       clock_reads uuid_draws];
  repeat match goal with
         | |- _ /\ _ => split
         | |- _ = _ => reflexivity
         | |- _ \/ _ => first [left; reflexivity | right; reflexivity]
         | |- exists l, ?a = (?a ++ l)%list /\ _ =>
             exists []; split; [symmetry; apply app_nil_r | simpl; lia]
         | |- exists l, (?a ++ [?x])%list = (?a ++ l)%list /\ _ =>
             exists [x]; split; [reflexivity | simpl; lia]
         end.

Section ExplanationCacheFrame.
Import explainEmoji_service.
Variable env : Env.

(** X4. Whatever the input, the store and the provider's answer, one call of
    [explainEmoji] asks the provider at most once, only appends to the emoji
    and explanation tables, at most one row each, and touches neither the
    users nor the sessions: no stored row is ever changed or removed. *)
Theorem explainEmoji_appends_at_most_one (s : string) (w : World) :
  appends_at_most_one s w (snd (explainEmoji env s w)).
Proof.
  unfold explainEmoji, Emoji_find_unique.
  unfold bind at 1 2. unfold get_store, ret at 1.
  destruct (emoji_record (store w) s) as [e|];
    [destruct (explanations_of (store w) e) as [|x xs]|].
  - unfold bind at 1 2.
    pose proof (fetch_explanation_world env s w) as Hw.
    destruct (fetch_explanation_from_groq env s w) as [r w1].
    cbn [snd] in Hw. subst w1. destruct r as [v|ex]; [|frame_done].
    unfold Explanation_create, EmojiExplanationResponse_init,
      bind, get_store, put_store, ret, raise.
    cbn [store emojis explanations users sessions provider_calls clock_reads
         uuid_draws].
    destruct v; try solve [frame_done].
    destruct (existsb (fun e0 => emoji_id e0 =? emoji_id e) (emojis (store w)));
      unfold ret; frame_done.
  - unfold bind, EmojiExplanationResponse_init, ret. frame_done.
  - unfold bind at 1 2.
    pose proof (fetch_explanation_world env s w) as Hw.
    destruct (fetch_explanation_from_groq env s w) as [r w1].
    cbn [snd] in Hw. subst w1. destruct r as [v|ex]; [|frame_done].
    unfold Emoji_create, Explanation_create, EmojiExplanationResponse_init,
      bind, get_store, put_store, ret, raise.
    cbn [store emojis explanations users sessions provider_calls clock_reads
         uuid_draws].
    destruct (existsb (fun e => String.eqb (symbol e) s) (emojis (store w)));
      [frame_done|].
    cbn [store emojis explanations users sessions provider_calls clock_reads
         uuid_draws emoji_id].
    destruct v; try solve [frame_done].
    match goal with
    | |- context [existsb ?p ?l] => destruct (existsb p l)
    end; unfold ret; frame_done.
Qed.
End ExplanationCacheFrame.

Ltac store_ok_by_computation :=
  constructor; cbn;
  repeat match goal with
         | |- NoDup [] => constructor
         | |- NoDup (_ :: _) => constructor
         | |- ~ _ => intro
         | |- forall _, _ => intro
         | H : In _ _ |- _ => cbn in H
         | H : False |- _ => destruct H
         | H : _ \/ _ |- _ => destruct H
         | H : _ = _ |- _ => first [discriminate H | subst; cbn]
         | |- _ \/ _ => first [left; reflexivity | right]
         end.

Lemma empty_store_ok : store_ok empty_store.
Proof. store_ok_by_computation. Qed.

Section ReadThrough.
Import explainEmoji_service.
Variable env : Env.

(** X5. The cache reads through: once a lookup of a new symbol has stored the
    provider's text, every later lookup of that symbol in the resulting
    world answers with the same text, asks no provider (whatever it would
    now answer) and changes nothing. *)
Theorem explainEmoji_read_through (s text : string) (w : World) :
  store_ok (store w) ->
  emoji_record (store w) s = None ->
  provider_text (groq_get env s) text ->
  fst (explainEmoji env s w) = Ok (mkEmojiExplanationResponse s text)
  /\ forall env',
       explainEmoji env' s (snd (explainEmoji env s w)) =
         (Ok (mkEmojiExplanationResponse s text), snd (explainEmoji env s w)).
Proof.
  intros Hok Hrecord Hprovider.
  rewrite (explainEmoji_run_unseen env s text w Hrecord Hprovider).
  cbn [fst snd]. split; [reflexivity|]. intros env'.
  apply (explainEmoji_run_hit env' s _
           (mkEmoji (next_id emoji_id (emojis (store w))) s)
           (mkExplanation (next_id explanation_id (explanations (store w)))
                          text (next_id emoji_id (emojis (store w))) 1)
           []).
  - unfold emoji_record. cbn [store emojis]. apply find_app_none.
    + exact Hrecord.
    + apply String.eqb_refl.
  - unfold explanations_of. cbn [store explanations emoji_id].
    rewrite filter_app. rewrite filter_none.
    + cbn [filter emojiId app]. rewrite Z.eqb_refl. reflexivity.
    + intros x Hin. apply Z.eqb_neq. intros Heq.
      apply (next_id_not_in emoji_id (emojis (store w))).
      rewrite <- Heq. apply (explanations_reference_emojis _ Hok). exact Hin.
Qed.
End ReadThrough.

Section ExplanationCacheMoreExamples.
Import explainEmoji_service.

Lemma explainEmoji_explains_bare_record_witness :
  explainEmoji sample_env smile (fresh_world bare_store) =
    (Ok (mkEmojiExplanationResponse smile "A slightly smiling face."),
     mkWorld (mkStore [mkEmoji 1 smile]
                      [mkExplanation 1 "A slightly smiling face." 1 1] [] [])
             [smile] 0 0).
Proof.
  apply (explainEmoji_explains_bare_record sample_env smile
           "A slightly smiling face." (fresh_world bare_store) (mkEmoji 1 smile)).
  - reflexivity.
  - reflexivity.
  - split; [simpl; lia|].
    exists [("explanation", JStr "A slightly smiling face.")].
    split; reflexivity.
Defined.

Lemma explainEmoji_provider_down_witness :
  explainEmoji down_env smile (fresh_world bare_store) =
    (Raise (HTTPStatusError 503), mkWorld bare_store [smile] 0 0).
Proof.
  apply (explainEmoji_provider_down down_env smile (fresh_world bare_store)).
  - reflexivity.
  - simpl. lia.
Defined.

Lemma explainEmoji_leaves_bare_record_witness :
  explainEmoji null_env smile (fresh_world empty_store) =
    (Raise (PrismaError "Invalid value for field content: expected a string"),
     mkWorld bare_store [smile] 0 0).
Proof.
  apply (explainEmoji_leaves_bare_record null_env smile (fresh_world empty_store)
           [("explanation", JNull)] JNull).
  - reflexivity.
  - simpl. lia.
  - reflexivity.
  - reflexivity.
  - intros text. discriminate.
Defined.

Lemma explainEmoji_read_through_witness :
  fst (explainEmoji sample_env smile (fresh_world empty_store)) =
    Ok (mkEmojiExplanationResponse smile "A slightly smiling face.")
  /\ forall env',
       explainEmoji env' smile
         (snd (explainEmoji sample_env smile (fresh_world empty_store))) =
         (Ok (mkEmojiExplanationResponse smile "A slightly smiling face."),
          snd (explainEmoji sample_env smile (fresh_world empty_store))).
Proof.
  apply (explainEmoji_read_through sample_env smile "A slightly smiling face."
           (fresh_world empty_store)).
  - exact empty_store_ok.
  - reflexivity.
  - split; [simpl; lia|].
    exists [("explanation", JStr "A slightly smiling face.")].
    split; reflexivity.
Defined.
End ExplanationCacheMoreExamples.

(** ** More on the receive path *)

Section ReceiveMore.
Import receiveEmoji_service.
Variable env : Env.

(** X6. With no character named "EMOJI" in the Unicode table, [receiveEmoji]
    never gets as far as the provider: the empty input is answered as not
    valid, every other input ends in the [KeyError] of the validation, and
    in both cases the world, provider log included, is what it was. *)
Theorem receiveEmoji_never_reaches_provider (emoji_ : string) (w : World) :
  find (fun p => String.eqb (fst p) "EMOJI") (unicode_names env) = None ->
  snd (receiveEmoji env emoji_ w) = w
  /\ (emoji_ = "" ->
      fst (receiveEmoji env emoji_ w) =
        Ok (mkEmojiResponseModel false " is not a valid emoji."))
  /\ (emoji_ <> "" ->
      fst (receiveEmoji env emoji_ w) =
        Raise (KeyError "undefined character name 'EMOJI'")).
Proof.
  intros Hnone.
  destruct (String.eqb emoji_ "") eqn:Hempty.
  - apply String.eqb_eq in Hempty. subst emoji_.
    split; [reflexivity|]. split; [reflexivity|]. intros H. contradiction H.
    reflexivity.
  - apply String.eqb_neq in Hempty.
    rewrite (receiveEmoji_nonempty_raises env _ w Hnone Hempty).
    split; [reflexivity|]. split; [|reflexivity]. intros H. contradiction.
Qed.

(** X7. [fetch_emoji_explanation] takes only status 200 for an answer: on any
    other status, other 2xx included, it yields the empty string without
    decoding the body, and on a 200 object without the field it yields
    [None]; both count as no explanation for its caller. *)
Theorem fetch_emoji_explanation_no_explanation (emoji_ : string) (w : World) :
  (status_code (groq_post env emoji_) <> 200 ->
   fetch_emoji_explanation env emoji_ w =
     (Ok (JStr ""),
      mkWorld (store w) (provider_calls w ++ [emoji_]) (clock_reads w)
              (uuid_draws w)))
  /\ (forall d,
        status_code (groq_post env emoji_) = 200 ->
        body (groq_post env emoji_) = Some (JObj d) ->
        dict_get "explanation" d = None ->
        fetch_emoji_explanation env emoji_ w =
          (Ok JNull,
           mkWorld (store w) (provider_calls w ++ [emoji_]) (clock_reads w)
                   (uuid_draws w)))
  /\ truthy (JStr "") = false /\ truthy JNull = false.
Proof.
  split; [|split; [|split; reflexivity]].
  - intros Hstatus. unfold fetch_emoji_explanation, client_post, bind.
    apply Z.eqb_neq in Hstatus. rewrite Hstatus. reflexivity.
  - intros d. apply fetch_emoji_explanation_missing_field.
Qed.
End ReceiveMore.

Section ReceiveMoreExamples.
Import receiveEmoji_service.

Lemma receiveEmoji_never_reaches_provider_witness :
  snd (receiveEmoji sample_env smile (fresh_world smile_store)) =
    fresh_world smile_store
  /\ (smile = "" ->
      fst (receiveEmoji sample_env smile (fresh_world smile_store)) =
        Ok (mkEmojiResponseModel false " is not a valid emoji."))
  /\ (smile <> "" ->
      fst (receiveEmoji sample_env smile (fresh_world smile_store)) =
        Raise (KeyError "undefined character name 'EMOJI'")).
Proof.
  apply (receiveEmoji_never_reaches_provider sample_env smile
           (fresh_world smile_store)).
  reflexivity.
Defined.

Lemma fetch_emoji_explanation_no_explanation_witness :
  fetch_emoji_explanation down_env smile (fresh_world empty_store) =
    (Ok (JStr ""), mkWorld empty_store [smile] 0 0)
  /\ fetch_emoji_explanation silent_env smile (fresh_world empty_store) =
       (Ok JNull, mkWorld empty_store [smile] 0 0).
Proof.
  split.
  - apply (proj1 (fetch_emoji_explanation_no_explanation down_env smile
                    (fresh_world empty_store))).
    discriminate.
  - apply (proj1 (proj2 (fetch_emoji_explanation_no_explanation silent_env smile
                           (fresh_world empty_store)))
             [("error", JStr "model overloaded")]); reflexivity.
Defined.
End ReceiveMoreExamples.

(** ** How the identity operations compose *)

Lemma find_fresh_id {A} (id : A -> Z) (rows : list A) :
  find (fun r => id r =? next_id id rows) rows = None.
Proof.
  destruct (find (fun r => id r =? next_id id rows) rows) as [r|] eqn:Hfind;
    [|reflexivity].
  apply find_some in Hfind. destruct Hfind as [Hin Heq].
  apply Z.eqb_eq in Heq. exfalso. exact (next_id_fresh id rows r Hin Heq).
Qed.

Lemma find_by_unique_id {A} (id : A -> Z) (rows : list A) (r : A) :
  NoDup (map id rows) -> In r rows ->
  find (fun r' => id r' =? id r) rows = Some r.
Proof.
  induction rows as [|r' rows IH]; cbn [map find In]; [intros _ []|].
  intros Hnodup Hin. inversion Hnodup as [|? ? Hnotin Hrest]; subst.
  destruct Hin as [-> | Hin].
  - rewrite Z.eqb_refl. reflexivity.
  - destruct (id r' =? id r) eqn:Heq.
    + apply Z.eqb_eq in Heq. exfalso. apply Hnotin. rewrite Heq.
      apply in_map. exact Hin.
    + apply IH; assumption.
Qed.

Lemma registerUser_conflict (username_ password_ email_ : string)
      (role_ : option Role) (w : World) (existing : User) :
  user_by_email (store w) email_ = Some existing ->
  registerUser_service.registerUser username_ password_ email_ role_ w =
    (Ok (registerUser_service.mkUserRegistrationResponse
           "Registration failed: Email already in use." None
           (Some "A user with this email already exists.")),
     w).
Proof.
  intros Hsome.
  unfold registerUser_service.registerUser, User_find_unique_email, bind,
    get_store, ret.
  rewrite Hsome. reflexivity.
Qed.

Section IdentityComposition.
Variable env : Env.

(** X8. Nothing of the token reaches the store: two runs of [loginUser] that
    differ only in the uuid drawn leave the same store behind. *)
Theorem loginUser_token_not_stored (env' : Env) (username_ password_ : string)
        (w : World) :
  clock env' (clock_reads w) = clock env (clock_reads w) ->
  store (snd (loginUser_service.loginUser env username_ password_ w)) =
  store (snd (loginUser_service.loginUser env' username_ password_ w)).
Proof.
  intros Hclock.
  destruct (user_by_email (store w) username_) as [u|] eqn:Hu.
  - destruct (String.eqb password_ "securepassword") eqn:Hpw.
    + apply String.eqb_eq in Hpw. subst password_.
      rewrite (loginUser_success env _ _ _ Hu), (loginUser_success env' _ _ _ Hu).
      cbn [snd store]. rewrite Hclock. reflexivity.
    + apply String.eqb_neq in Hpw.
      rewrite (loginUser_wrong_password env _ _ _ _ Hu Hpw),
              (loginUser_wrong_password env' _ _ _ _ Hu Hpw).
      reflexivity.
  - rewrite (loginUser_unknown env _ _ _ Hu), (loginUser_unknown env' _ _ _ Hu).
    reflexivity.
Qed.

(** X9. The session a login creates cannot be verified: for every token
    whose [int] is the id of the Session row a successful login has just
    added, [verifySession] finds the row and ends in the [TypeError] of
    comparing its stored expiry with [datetime.now()], whatever the clock
    shows, and gives no answer. *)
Theorem login_then_verifySession (username_ token : string) (w : World)
        (u : User) :
  user_by_email (store w) username_ = Some u ->
  int_of_str env token = Ok (next_id session_id (sessions (store w))) ->
  fst (verifySession_service.verifySession env token
         (snd (loginUser_service.loginUser env username_ "securepassword" w))) =
    Raise (TypeError "can't compare offset-naive and offset-aware datetimes").
Proof.
  intros Hu Hint.
  rewrite (loginUser_success env _ _ _ Hu). cbn [snd].
  rewrite (verifySession_found env token
             (next_id session_id (sessions (store w)))
             (mkSession (next_id session_id (sessions (store w))) (user_id u)
                        (clock env (clock_reads w) + 24 * 3600 * 1000000))).
  - reflexivity.
  - exact Hint.
  - unfold session_by_id. cbn [store sessions]. apply find_app_none.
    + apply find_fresh_id.
    + apply Z.eqb_refl.
Qed.

(** X10. [logoutUser] never changes the store: a token that names a stored
    session ends the call in the [TypeError] of comparing the stored expiry
    with [datetime.now()], before the update that would expire the session,
    and on every other token the call stops earlier; so for every token
    and every store, the store after the call is the store before it. *)
Theorem logoutUser_never_changes_store (token : string) (w : World) :
  store (snd (logoutUser_service.logoutUser env token w)) = store w
  /\ forall sid s,
       int_of_str env token = Ok sid ->
       session_by_id (sessions (store w)) sid = Some s ->
       fst (logoutUser_service.logoutUser env token w) =
         Raise (TypeError "can't compare offset-naive and offset-aware datetimes").
Proof.
  split.
  - destruct (int_of_str env token) as [sid|e] eqn:Hint.
    + destruct (session_by_id (sessions (store w)) sid) as [s|] eqn:Hsome.
      * rewrite (logoutUser_found env _ _ _ _ Hint Hsome). reflexivity.
      * rewrite (logoutUser_no_session env _ _ _ Hint Hsome). reflexivity.
    + unfold logoutUser_service.logoutUser, py_int, try_except, bind.
      rewrite Hint. destruct e; reflexivity.
  - intros sid s Hint Hsome.
    rewrite (logoutUser_found env _ _ _ _ Hint Hsome). reflexivity.
Qed.
End IdentityComposition.

Section RegistrationComposition.
Import registerUser_service.

(** X11. Registering twice with one email: after a registration that succeeded,
    a second one with the same email, whatever its other fields, answers
    "Registration failed: Email already in use." and changes nothing, so
    the store still holds exactly the one User row the first call added. *)
Theorem registerUser_twice (username_ password_ email_ : string)
        (role_ : option Role) (username' password' : string)
        (role' : option Role) (w : World) :
  user_by_email (store w) email_ = None ->
  let w1 := snd (registerUser username_ password_ email_ role_ w) in
  registerUser username' password' email_ role' w1 =
    (Ok (mkUserRegistrationResponse
           "Registration failed: Email already in use." None
           (Some "A user with this email already exists.")),
     w1)
  /\ List.length (users (store w1)) = S (List.length (users (store w))).
Proof.
  intros Hnone w1. subst w1.
  rewrite (registerUser_new username_ password_ email_ role_ w Hnone).
  cbn [snd store users]. split.
  - apply registerUser_conflict
      with (existing := mkUser (next_id user_id (users (store w))) username_
                               password_ email_
                               (match role_ with Some r => r | None => USER end)).
    unfold user_by_email. cbn [store users]. apply find_app_none.
    + exact Hnone.
    + apply String.eqb_refl.
  - rewrite length_app. cbn [List.length]. lia.
Qed.

(** X12. The password given at registration plays no part at login: after a
    successful registration, logging in with the registered email and the
    hardcoded secret succeeds and opens a session for the new user, while
    logging in with the registered password fails with "Incorrect password"
    unless that password is the secret. *)
Theorem registerUser_then_loginUser (env : Env)
        (username_ password_ email_ : string) (role_ : option Role) (w : World) :
  user_by_email (store w) email_ = None ->
  let w1 := snd (registerUser username_ password_ email_ role_ w) in
  let new_id := next_id user_id (users (store w)) in
  (exists token,
     fst (loginUser_service.loginUser env email_ "securepassword" w1) =
       Ok (loginUser_service.mkUserLoginResponse token)
     /\ sessions (store (snd (loginUser_service.loginUser env email_
                                "securepassword" w1))) =
        (sessions (store w)
           ++ [mkSession (next_id session_id (sessions (store w))) new_id
                         (clock env (clock_reads w) + 24 * 3600 * 1000000)])%list)
  /\ (password_ <> "securepassword" ->
      loginUser_service.loginUser env email_ password_ w1 =
        (Raise (ValueError "Incorrect password"), w1)).
Proof.
  intros Hnone w1 new_id. subst w1.
  rewrite (registerUser_new username_ password_ email_ role_ w Hnone).
  cbn [snd].
  set (u := mkUser (next_id user_id (users (store w))) username_ password_ email_
                   (match role_ with Some r => r | None => USER end)).
  assert (Hu : forall calls reads draws,
             user_by_email
               (store (mkWorld (mkStore (emojis (store w)) (explanations (store w))
                                        (users (store w) ++ [u])
                                        (sessions (store w)))
                               calls reads draws)) email_ = Some u).
  { intros. unfold user_by_email. cbn [store users]. apply find_app_none.
    - exact Hnone.
    - apply String.eqb_refl. }
  split.
  - exists (uuid4 env (uuid_draws w)).
    rewrite (loginUser_success env email_ _ u (Hu _ _ _)).
    cbn [fst snd store sessions clock_reads uuid_draws user_id]. subst u new_id.
    split; reflexivity.
  - intros Hpw. apply (loginUser_wrong_password env email_ password_ _ u).
    + apply Hu.
    + exact Hpw.
Qed.
End RegistrationComposition.

Section IdentityCompositionExamples.

Lemma loginUser_token_not_stored_witness :
  store (snd (loginUser_service.loginUser sample_env "dana@example.com"
                "securepassword" (fresh_world dana_store))) =
  store (snd (loginUser_service.loginUser other_uuid_env "dana@example.com"
                "securepassword" (fresh_world dana_store))).
Proof.
  apply (loginUser_token_not_stored sample_env other_uuid_env "dana@example.com"
           "securepassword" (fresh_world dana_store)).
  reflexivity.
Defined.

Lemma login_then_verifySession_witness :
  fst (verifySession_service.verifySession sample_env "3"
         (snd (loginUser_service.loginUser sample_env "dana@example.com"
                 "securepassword" (fresh_world dana_store)))) =
    Raise (TypeError "can't compare offset-naive and offset-aware datetimes").
Proof.
  apply (login_then_verifySession sample_env "dana@example.com" "3"
           (fresh_world dana_store) dana); reflexivity.
Defined.

Lemma logoutUser_never_changes_store_witness :
  store (snd (logoutUser_service.logoutUser sample_env "2"
                (afternoon_world dana_store))) = dana_store
  /\ fst (logoutUser_service.logoutUser sample_env "2"
            (afternoon_world dana_store)) =
       Raise (TypeError "can't compare offset-naive and offset-aware datetimes").
Proof.
  destruct (logoutUser_never_changes_store sample_env "2"
              (afternoon_world dana_store)) as [Hstore Hraise].
  split; [exact Hstore|].
  apply (Hraise 2 (mkSession 2 1 46800000000)); reflexivity.
Defined.

Lemma registerUser_twice_witness :
  registerUser_service.registerUser "eli2" "other" "eli@example.com" (Some ADMIN)
    (snd (registerUser_service.registerUser "eli" "pw" "eli@example.com" None
            (fresh_world dana_store))) =
    (Ok (registerUser_service.mkUserRegistrationResponse
           "Registration failed: Email already in use." None
           (Some "A user with this email already exists.")),
     snd (registerUser_service.registerUser "eli" "pw" "eli@example.com" None
            (fresh_world dana_store)))
  /\ List.length
       (users (store (snd (registerUser_service.registerUser "eli" "pw"
                             "eli@example.com" None (fresh_world dana_store))))) =
     2%nat.
Proof.
  apply (registerUser_twice "eli" "pw" "eli@example.com" None "eli2" "other"
           (Some ADMIN) (fresh_world dana_store)).
  reflexivity.
Defined.

Lemma registerUser_then_loginUser_witness :
  (exists token,
     fst (loginUser_service.loginUser sample_env "eli@example.com"
            "securepassword"
            (snd (registerUser_service.registerUser "eli" "pw" "eli@example.com"
                    None (fresh_world dana_store)))) =
       Ok (loginUser_service.mkUserLoginResponse token)
     /\ sessions (store (snd (loginUser_service.loginUser sample_env
                                "eli@example.com" "securepassword"
                                (snd (registerUser_service.registerUser "eli" "pw"
                                        "eli@example.com" None
                                        (fresh_world dana_store)))))) =
        [mkSession 1 1 43200000000; mkSession 2 1 46800000000;
         mkSession 3 2 (43200000000 + 86400000000)])
  /\ ("pw" <> "securepassword" ->
      loginUser_service.loginUser sample_env "eli@example.com" "pw"
        (snd (registerUser_service.registerUser "eli" "pw" "eli@example.com"
                None (fresh_world dana_store))) =
        (Raise (ValueError "Incorrect password"),
         snd (registerUser_service.registerUser "eli" "pw" "eli@example.com"
                None (fresh_world dana_store)))).
Proof.
  apply (registerUser_then_loginUser sample_env "eli" "pw" "eli@example.com"
           None (fresh_world dana_store)).
  reflexivity.
Defined.
End IdentityCompositionExamples.

(** ** What the identity operations never do *)

Section IdentityFrames.
Variable env : Env.

Lemma verifySession_reads_only (token : string) (w : World) :
  store (snd (verifySession_service.verifySession env token w)) = store w
  /\ provider_calls (snd (verifySession_service.verifySession env token w)) =
     provider_calls w.
Proof.
  destruct (int_of_str env token) as [sid|e] eqn:Hint.
  - destruct (session_by_id (sessions (store w)) sid) as [s|] eqn:Hsome.
    + rewrite (verifySession_found env _ _ _ _ Hint Hsome). split; reflexivity.
    + rewrite (verifySession_no_session env _ _ _ Hint Hsome). split; reflexivity.
  - rewrite (verifySession_unparsable env _ _ _ Hint). split; reflexivity.
Qed.

(** X13. [verifySession] as a whole: whatever [int] raises on the token
    leaves the function as it is, world unchanged (the [ValueError] of a
    token that is no integer is not answered as invalid, unlike logout);
    a token that names a stored session ends the call in the [TypeError]
    of comparing the stored expiry with [datetime.now()], whether the
    session has expired or not; and no call, however it ends, changes the
    store or reaches the provider. *)
Theorem verifySession_behaviour (token : string) (w : World) :
  (forall e,
      int_of_str env token = Raise e ->
      verifySession_service.verifySession env token w = (Raise e, w))
  /\ (forall sid s,
        int_of_str env token = Ok sid ->
        session_by_id (sessions (store w)) sid = Some s ->
        fst (verifySession_service.verifySession env token w) =
          Raise (TypeError "can't compare offset-naive and offset-aware datetimes"))
  /\ store (snd (verifySession_service.verifySession env token w)) = store w
  /\ provider_calls (snd (verifySession_service.verifySession env token w)) =
     provider_calls w.
Proof.
  split; [|split].
  - intros e. apply verifySession_unparsable.
  - intros sid s Hint Hsome.
    rewrite (verifySession_found env _ _ _ _ Hint Hsome). reflexivity.
  - apply verifySession_reads_only.
Qed.
End IdentityFrames.


(** ** Role update *)

Lemma set_role_found (rows : list User) (i : Z) (r : Role) (u : User) :
  find (fun v => user_id v =? i) rows = Some u ->
  find (fun v => user_id v =? i) (set_role i r rows) =
    Some (mkUser i (username u) (password u) (email u) r).
Proof.
  unfold set_role.
  induction rows as [|v rows IH]; simpl; [discriminate|].
  destruct (user_id v =? i) eqn:Hid; simpl.
  - intros [= ->]. apply Z.eqb_eq in Hid. rewrite Hid, Z.eqb_refl. reflexivity.
  - rewrite Hid. exact IH.
Qed.

Lemma set_role_other (rows : list User) (i : Z) (r : Role) (u : User) :
  In u rows -> user_id u <> i -> In u (set_role i r rows).
Proof.
  intros Hin Hne. unfold set_role. apply in_map_iff. exists u.
  apply Z.eqb_neq in Hne. rewrite Hne. split; [reflexivity | exact Hin].
Qed.

Lemma set_role_ids (rows : list User) (i : Z) (r : Role) :
  map user_id (set_role i r rows) = map user_id rows
  /\ map email (set_role i r rows) = map email rows.
Proof.
  unfold set_role. split; rewrite map_map; apply map_ext; intros u;
    destruct (user_id u =? i); reflexivity.
Qed.

Section RoleUpdate.
Import updateUserRole_service.

(** X16. [updateUserRole]: for an id no User has, the answer is "User not found"
    and nothing changes; for an existing User and the name of a role, the
    answer is "Success", the User found under the id afterwards is the old
    one with the new role, every other User is kept as it was, and the other
    tables are untouched; for an existing User and a string that names no
    role, the update is refused, the call ends in that error and nothing
    changes. *)
Theorem updateUserRole_outcomes (userId_ : Z) (newRole : string) (w : World) :
  (user_by_id (store w) userId_ = None ->
   updateUserRole userId_ newRole w =
     (Ok (mkUserRoleUpdateResponse userId_ "" "User not found"), w))
  /\ (forall u r,
        user_by_id (store w) userId_ = Some u ->
        role_of_string newRole = Some r ->
        let w' := snd (updateUserRole userId_ newRole w) in
        fst (updateUserRole userId_ newRole w) =
          Ok (mkUserRoleUpdateResponse userId_ newRole "Success")
        /\ user_by_id (store w') userId_ =
             Some (mkUser userId_ (username u) (password u) (email u) r)
        /\ (forall v, In v (users (store w)) -> user_id v <> userId_ ->
                      In v (users (store w')))
        /\ List.length (users (store w')) = List.length (users (store w))
        /\ emojis (store w') = emojis (store w)
        /\ explanations (store w') = explanations (store w)
        /\ sessions (store w') = sessions (store w))
  /\ (forall u,
        user_by_id (store w) userId_ = Some u ->
        role_of_string newRole = None ->
        fst (updateUserRole userId_ newRole w) =
          Raise (PrismaError "Invalid value for field role: not a Role")
        /\ snd (updateUserRole userId_ newRole w) = w).
Proof.
  split; [|split].
  - intros Hnone. unfold updateUserRole, User_find_unique_id, bind, get_store, ret.
    rewrite Hnone. reflexivity.
  - intros u r Hsome Hrole w'. subst w'.
    unfold updateUserRole, User_find_unique_id, User_update_role, bind,
      get_store, put_store, ret.
    rewrite Hsome, Hrole.
    cbn [fst snd store users emojis explanations sessions].
    split; [reflexivity|]. split; [|split; [|split]].
    + unfold user_by_id. cbn [store users]. apply set_role_found. exact Hsome.
    + intros v Hin Hne. apply set_role_other; assumption.
    + unfold set_role. apply List.length_map.
    + repeat split.
  - intros u Hsome Hrole.
    unfold updateUserRole, User_find_unique_id, User_update_role, bind,
      get_store, ret, raise.
    rewrite Hsome, Hrole. split; reflexivity.
Qed.

Lemma updateUserRole_outcomes_witness :
  updateUserRole 9 "ADMIN" (fresh_world dana_store) =
    (Ok (mkUserRoleUpdateResponse 9 "" "User not found"), fresh_world dana_store)
  /\ (fst (updateUserRole 1 "SERVICE_MANAGER" (fresh_world dana_store)) =
        Ok (mkUserRoleUpdateResponse 1 "SERVICE_MANAGER" "Success")
      /\ user_by_id
           (store (snd (updateUserRole 1 "SERVICE_MANAGER"
                          (fresh_world dana_store)))) 1 =
         Some (mkUser 1 "dana" "hunter2" "dana@example.com" SERVICE_MANAGER))
  /\ (fst (updateUserRole 1 "root" (fresh_world dana_store)) =
        Raise (PrismaError "Invalid value for field role: not a Role")
      /\ snd (updateUserRole 1 "root" (fresh_world dana_store)) =
         fresh_world dana_store).
Proof.
  split; [|split].
  - apply (proj1 (updateUserRole_outcomes 9 "ADMIN" (fresh_world dana_store))).
    reflexivity.
  - destruct (proj1 (proj2 (updateUserRole_outcomes 1 "SERVICE_MANAGER"
                              (fresh_world dana_store)))
                dana SERVICE_MANAGER eq_refl eq_refl) as (Hanswer & Hfound & _).
    split; [exact Hanswer | exact Hfound].
  - apply (proj2 (proj2 (updateUserRole_outcomes 1 "root"
                           (fresh_world dana_store))) dana); reflexivity.
Defined.
End RoleUpdate.

(** ** Resource deletion *)

(** X17. [deleteResourceAllocation] never raises and does nothing of its
    own: whatever the client's delete does with the id, the world after
    the call is the world the delete left, and the answer tells its
    outcome: "Resource allocation deleted successfully." when it returned
    the record, "Resource allocation not found." when it returned [None],
    and "Failed to delete resource allocation: " followed by the text of the
    exception when it raised. *)
Theorem deleteResourceAllocation_answers
        (Explanation_delete : string -> M (option Explanation))
        (resource_id : string) (w : World) :
  snd (deleteResourceAllocation_service.deleteResourceAllocation
         Explanation_delete resource_id w) =
    snd (Explanation_delete resource_id w)
  /\ fst (deleteResourceAllocation_service.deleteResourceAllocation
            Explanation_delete resource_id w) =
     Ok (deleteResourceAllocation_service.mkDeleteResourceResponse
           match fst (Explanation_delete resource_id w) with
           | Ok (Some _) => "Resource allocation deleted successfully."
           | Ok None => "Resource allocation not found."
           | Raise e => "Failed to delete resource allocation: " ++ exn_str e
           end).
Proof.
  unfold deleteResourceAllocation_service.deleteResourceAllocation, try_except,
    bind, ret.
  destruct (Explanation_delete resource_id w) as [[[x|]|e] w'];
    split; reflexivity.
Qed.

Lemma verifySession_behaviour_witness :
  verifySession_service.verifySession sample_env "3f2b8c1e"
    (afternoon_world dana_store) =
    (Raise (ValueError "invalid literal for int() with base 10: '3f2b8c1e'"),
     afternoon_world dana_store)
  /\ fst (verifySession_service.verifySession sample_env "2"
            (afternoon_world dana_store)) =
       Raise (TypeError "can't compare offset-naive and offset-aware datetimes").
Proof.
  split.
  - apply (proj1 (verifySession_behaviour sample_env "3f2b8c1e"
                    (afternoon_world dana_store))).
    reflexivity.
  - apply (proj1 (proj2 (verifySession_behaviour sample_env "2"
                           (afternoon_world dana_store)))
             2 (mkSession 2 1 46800000000)); reflexivity.
Defined.
